(** * obs-audio-fixer: a shallow embedding of [obsws.py]

    The script reconciles a configuration of audio routes with the audio
    devices of the host (the [soundcard] package) and with the device
    assignments held by an OBS instance reached through [simpleobsws].

    Python values are modelled by a small sum type, exceptions by an
    explicit result type, [print] by a list of printed lines, and the
    websocket by the list of operations performed on it. *)

From Stdlib Require Import String List Bool Arith Lia Ascii.
Import ListNotations.
Open Scope string_scope.

(** ** The host: what [soundcard] enumerates *)

Module soundcard.

(** A speaker or microphone object; the script reads [id] and [name]. *)
Record device := mkdevice { id : string; name : string }.

(** One snapshot of the host's audio devices. *)
Record host := mkhost {
  all_speakers : list device;
  all_microphones : list device;
  default_speaker : device;
  default_microphone : device
}.

End soundcard.

Import soundcard.

(** ** Python values, exceptions, results *)

(** The values the device lookups hand around: [None], a string (the
    literal ['default']), or a device object. *)
Inductive value :=
| VNone
| VStr (s : string)
| VDev (d : device).

(** Python truthiness ([if not device]). *)
Definition truthy (v : value) : bool :=
  match v with
  | VNone => false
  | VStr s => negb (s =? "")
  | VDev _ => true
  end.

(** [device == 'default'] *)
Definition value_eq_str (v : value) (s : string) : bool :=
  match v with
  | VStr s' => s' =? s
  | _ => false
  end.

Inductive exn := IndexError | ValueError | KeyError | AttributeError.

(** Outcome of a call: it returns, it raises, or the recursion budget of
    the model ran out before the call finished. *)
Inductive res (A : Type) :=
| Ret (a : A)
| Raise (e : exn)
| OutOfFuel.

Arguments Ret {A} a.
Arguments Raise {A} e.
Arguments OutOfFuel {A}.

(** The two attributes [select_device] is asked to compare
    (['name'] and ['id'] at every call site). *)
Inductive attr := attr_name | attr_id.

Definition getattr (d : device) (prop : attr) : string :=
  match prop with
  | attr_name => name d
  | attr_id => id d
  end.

Definition nl : string := String (ascii_of_nat 10) EmptyString.

(** ** The configuration *)

Record route := mkroute { obs_device : string; device_name : string }.

Record config := mkconfig {
  inputs : list route;
  outputs : list route;
  defaultInput : option string;
  defaultOutput : option string
}.

(** ** class AudioDeviceManager *)

Record AudioDeviceManager := mkADM {
  default_output : string;
  default_input : string
}.

(** [__init__]: [config.get(key, <name of the OS default>)]. *)
Definition ADM_init (hw : host) (c : config) : AudioDeviceManager :=
  {| default_output :=
       match defaultOutput c with
       | Some n => n
       | None => name (default_speaker hw)
       end;
     default_input :=
       match defaultInput c with
       | Some n => n
       | None => name (default_microphone hw)
       end |}.

(** [list(filter(lambda d: getattr(d, prop) == value, devices))] *)
Definition matching (prop : attr) (v : string) (devices : list device)
  : list device :=
  filter (fun d => getattr d prop =? v) devices.

(** [device[0]] on the filtered list. *)
Definition first_match (prop : attr) (v : string) (devices : list device)
  : res value :=
  match matching prop v devices with
  | [] => Raise IndexError
  | d :: _ => Ret (VDev d)
  end.

(** [select_device]; [fuel] bounds the depth of the recursive calls, and
    [is_input] is the tri-state flag ([None] means both directions). *)
Fixpoint select_device (hw : host) (self : AudioDeviceManager) (fuel : nat)
    (prop : attr) (v : string) (is_input : option bool) : res value :=
  match fuel with
  | O => OutOfFuel
  | S fuel' =>
    match is_input with
    | None =>
      let devices := (all_speakers hw ++ all_microphones hw)%list in
      if v =? "default" then Ret VNone
      else first_match prop v devices
    | Some true =>
      if v =? "default"
      then select_device hw self fuel' attr_name (default_input self)
             (Some true)
      else first_match prop v (all_microphones hw)
    | Some false =>
      if v =? "default"
      then select_device hw self fuel' attr_name (default_output self)
             (Some true)
      else first_match prop v (all_speakers hw)
    end
  end.

Definition get_default (hw : host) (self : AudioDeviceManager) (fuel : nat)
    (is_input : option bool) : res value :=
  select_device hw self fuel attr_name "default" is_input.

(** [print_device_listing]: the lines it prints. *)
Definition format_device (with_ids : bool) (d : device) : string :=
  if with_ids
  then "ID: '" ++ id d ++ "' Name: '" ++ name d ++ "'"
  else name d.

Definition print_device_listing (hw : host) (with_ids : bool) : list string :=
  let speakers := all_speakers hw in
  let mics := all_microphones hw in
  ((if Nat.eqb (length speakers) 0 then []
    else (nl ++ "Available audio output devices:")%string
           :: map (format_device with_ids) (all_speakers hw))
   ++
   (if Nat.eqb (length mics) 0 then []
    else (nl ++ "Available audio input devices:")%string
           :: map (format_device with_ids) mics))%list.

(** [device_by_name]: the outcome together with the lines printed. *)
Definition device_by_name (hw : host) (self : AudioDeviceManager)
    (fuel : nat) (n : string) (is_input : option bool)
    (replace_default : bool) : res value * list string :=
  if replace_default && (n =? "default")
  then (get_default hw self fuel is_input, [])
  else
    match select_device hw self fuel attr_name n is_input with
    | Raise IndexError =>
      (Raise ValueError,
       ("Windows does not have a device called " ++ n)
         :: print_device_listing hw false)
    | r => (r, [])
    end.

Definition input_by_name (hw : host) (self : AudioDeviceManager)
    (fuel : nat) (n : string) (replace_default : bool) :=
  device_by_name hw self fuel n (Some true) replace_default.

Definition output_by_name (hw : host) (self : AudioDeviceManager)
    (fuel : nat) (n : string) (replace_default : bool) :=
  device_by_name hw self fuel n (Some false) replace_default.

(** [device_by_id]; [default_if_missing] is accepted and never read. *)
Definition device_by_id (hw : host) (self : AudioDeviceManager)
    (fuel : nat) (i : string) : res value :=
  match select_device hw self fuel attr_id i None with
  | Raise IndexError =>
    if i =? "default" then Ret (VStr "default") else Ret VNone
  | r => r
  end.

Definition all_devices (hw : host) : list device :=
  (all_speakers hw ++ all_microphones hw)%list.

(** ** The websocket and the OBS instance behind it *)

(** The three commands the script sends through [ws.call]. *)
Inductive request :=
| GetSpecialSources
| GetSourceSettings (sourceName : string)
| SetSourceSettings (sourceName device_id : string).

(** What is done on [self.ws]. *)
Inductive ws_op :=
| ws_connect
| ws_disconnect
| ws_call (r : request).

(** A Python dict from strings to strings, in insertion order. *)
Definition dict := list (string * string).

Fixpoint dict_get (d : dict) (k : string) : option string :=
  match d with
  | [] => None
  | (k', x) :: d' => if k' =? k then Some x else dict_get d' k
  end.

Fixpoint dict_del (d : dict) (k : string) : dict :=
  match d with
  | [] => []
  | (k', x) :: d' => if k' =? k then d' else (k', x) :: dict_del d' k
  end.

Fixpoint dict_set (d : dict) (k x : string) : dict :=
  match d with
  | [] => [(k, x)]
  | (k', x') :: d' =>
    if k' =? k then (k, x) :: d' else (k', x') :: dict_set d' k x
  end.

Definition dict_values (d : dict) : list string := map snd d.

(** The OBS instance as the script sees it through the protocol:
    [special_sources] is the reply to [GetSpecialSources] (role to source
    label, with the transport's ['status'] entry), [source_settings] gives
    the [device_id] of each source. *)
Record obs := mkobs {
  special_sources : dict;
  source_settings : dict
}.

Inductive response :=
| RespSpecialSources (d : dict)
| RespSourceSettings (device_id : option string)
| RespOk.

Definition obs_respond (r : request) (o : obs) : response * obs :=
  match r with
  | GetSpecialSources => (RespSpecialSources (special_sources o), o)
  | GetSourceSettings n =>
    (RespSourceSettings (dict_get (source_settings o) n), o)
  | SetSourceSettings n i =>
    (RespOk,
     {| special_sources := special_sources o;
        source_settings := dict_set (source_settings o) n i |})
  end.

(** Everything the script can change: the [connected] flag of the
    [OBSWebsocket] object, the operations performed on its socket
    (oldest first), the OBS instance, and the lines printed. *)
Record world := mkworld {
  connected : bool;
  wire : list ws_op;
  remote : obs;
  stdout : list string
}.

(** [OBSWebsocket.__init__] *)
Definition OBSWebsocket_init (o : obs) : world :=
  {| connected := false; wire := []; remote := o; stdout := [] |}.

(** ** A state and exception monad for the coroutines *)

Definition M (A : Type) : Type := world -> res A * world.

Definition ret {A} (a : A) : M A := fun w => (Ret a, w).

Definition raise {A} (e : exn) : M A := fun w => (Raise e, w).

Definition bind {A B} (m : M A) (k : A -> M B) : M B :=
  fun w =>
    match m w with
    | (Ret a, w') => k a w'
    | (Raise e, w') => (Raise e, w')
    | (OutOfFuel, w') => (OutOfFuel, w')
    end.

Declare Scope obs_scope.
Delimit Scope obs_scope with obs.

Notation "x <- m ;; k" := (bind m (fun x => k))
  (at level 61, m at next level, right associativity) : obs_scope.
Notation "m ;; k" := (bind m (fun _ => k))
  (at level 61, right associativity) : obs_scope.

Open Scope obs_scope.

Definition print (s : string) : M unit :=
  fun w =>
    (Ret tt,
     {| connected := connected w; wire := wire w; remote := remote w;
        stdout := (stdout w ++ [s])%list |}).

(** A call into [AudioDeviceManager]: its outcome, and its lines appended
    to the output. *)
Definition lift {A} (p : res A * list string) : M A :=
  fun w =>
    (fst p,
     {| connected := connected w; wire := wire w; remote := remote w;
        stdout := (stdout w ++ snd p)%list |}).

Definition get_connected : M bool := fun w => (Ret (connected w), w).

Definition set_connected (b : bool) : M unit :=
  fun w =>
    (Ret tt,
     {| connected := b; wire := wire w; remote := remote w;
        stdout := stdout w |}).

(** [await self.ws.connect()] and [await self.ws.disconnect()] *)
Definition socket (op : ws_op) : M unit :=
  fun w =>
    (Ret tt,
     {| connected := connected w; wire := (wire w ++ [op])%list;
        remote := remote w; stdout := stdout w |}).

(** [await self.ws.call(...)] *)
Definition socket_call (r : request) : M response :=
  fun w =>
    let (resp, o) := obs_respond r (remote w) in
    (Ret resp,
     {| connected := connected w; wire := (wire w ++ [ws_call r])%list;
        remote := o; stdout := stdout w |}).

Fixpoint for_each {A} (l : list A) (body : A -> M unit) : M unit :=
  match l with
  | [] => ret tt
  | x :: l' => body x ;; for_each l' body
  end.

(** ** class OBSWebsocket *)

Definition connect : M unit :=
  c <- get_connected ;;
  if negb c
  then socket ws_connect ;;
       set_connected true ;;
       print "OBS WebSocket connection established."
  else ret tt.

Definition disconnect : M unit :=
  c <- get_connected ;;
  if c
  then socket ws_disconnect ;;
       set_connected false ;;
       print "OBS WebSocket disconnected."
  else ret tt.

Definition call (r : request) : M response :=
  connect ;;
  socket_call r.

(** [del result['status']; return result.values()] *)
Definition get_audio_devices : M (list string) :=
  connect ;;
  result <- socket_call GetSpecialSources ;;
  match result with
  | RespSpecialSources d =>
    match dict_get d "status" with
    | Some _ => ret (dict_values (dict_del d "status"))
    | None => raise KeyError
    end
  | _ => raise KeyError
  end.

(** [return result[device]] *)
Definition get_obs_audio_device_name (device : string) : M string :=
  connect ;;
  result <- socket_call GetSpecialSources ;;
  match result with
  | RespSpecialSources d =>
    match dict_get d device with
    | Some label => ret label
    | None => raise KeyError
    end
  | _ => raise KeyError
  end.

Definition get_audiodevice_settings (device_name : string) : M response :=
  connect ;;
  socket_call (GetSourceSettings device_name).

(** [settings['sourceSettings']['device_id']] *)
Definition settings_device_id (settings : response) : M string :=
  match settings with
  | RespSourceSettings (Some i) => ret i
  | _ => raise KeyError
  end.

Definition print_sources_settings (hw : host) (fuel : nat)
    (audio_device_manager : AudioDeviceManager) : M unit :=
  connect ;;
  device_names <- get_audio_devices ;;
  for_each device_names (fun obs_device_name =>
    settings <- get_audiodevice_settings obs_device_name ;;
    device_id <- settings_device_id settings ;;
    device <- lift (device_by_id hw audio_device_manager fuel device_id, []) ;;
    if negb (truthy device)
    then print (obs_device_name
                  ++ " is set to a device-id unknown to Windows: '"
                  ++ device_id ++ "'")
    else if value_eq_str device "default"
    then print (obs_device_name ++ " is set to 'default'")
    else match device with
         | VDev d => print (obs_device_name ++ " is set to '" ++ name d ++ "'")
         | _ => raise AttributeError
         end).

Definition get_audio_device_ids : M unit :=
  device_names <- get_audio_devices ;;
  for_each device_names (fun device_name =>
    settings <- get_audiodevice_settings device_name ;;
    device_id <- settings_device_id settings ;;
    print (device_name ++ " is set to '" ++ device_id ++ "'")).

(** ** The synchronization pass *)

Definition set_obs_source (source_name : string) (device : value) : M unit :=
  match device with
  | VDev d =>
    print ("Setting OBS source " ++ source_name ++ " to Windows device "
             ++ name d) ;;
    call (SetSourceSettings source_name (id d)) ;;
    ret tt
  | _ => raise AttributeError
  end.

(** The body of the two loops of [set_audio_device_settings]; they differ
    only in calling [input_by_name] or [output_by_name]. *)
Definition set_route (hw : host) (fuel : nat) (adm : AudioDeviceManager)
    (is_input : bool) (conf : route) : M unit :=
  source_name <- get_obs_audio_device_name (obs_device conf) ;;
  device <- lift ((if is_input then input_by_name else output_by_name)
                    hw adm fuel (device_name conf) true) ;;
  set_obs_source source_name device.

Definition set_audio_device_settings (hw : host) (fuel : nat) (c : config)
    (adm : AudioDeviceManager) : M unit :=
  (if Nat.eqb (length (inputs c)) 0 then ret tt
   else
     print (nl ++ "Setting Input devices") ;;
     for_each (inputs c) (set_route hw fuel adm true)) ;;
  (if Nat.eqb (length (outputs c)) 0 then ret tt
   else
     print (nl ++ "Setting Output devices") ;;
     for_each (outputs c) (set_route hw fuel adm false)).

(** [main], from the construction of the manager on. *)
Definition main (hw : host) (fuel : nat) (c : config) : M unit :=
  lift (Ret tt, print_device_listing hw false) ;;
  print "" ;;
  let adm := ADM_init hw c in
  print ("Default Audio  Input (for this script) set to '"
           ++ default_input adm ++ "'") ;;
  print ("Default Audio Output (for this script) set to '"
           ++ default_output adm ++ "'") ;;
  print "" ;;
  connect ;;
  print "" ;;
  print_sources_settings hw fuel adm ;;
  set_audio_device_settings hw fuel c adm ;;
  print "" ;;
  disconnect.

(** ** Vocabulary of the statements *)

(** The devices of one direction, as [select_device] enumerates them. *)
Definition devices_of (hw : host) (is_input : bool) : list device :=
  if is_input then all_microphones hw else all_speakers hw.

(** The [SetSourceSettings] calls found in a socket log, in order, each as
    (sourceName, device_id). *)
Fixpoint set_calls (log : list ws_op) : list (string * string) :=
  match log with
  | [] => []
  | ws_call (SetSourceSettings n i) :: log' => (n, i) :: set_calls log'
  | _ :: log' => set_calls log'
  end.

(** The socket as a two-state machine: [replay opened log] follows [log]
    from the state [opened] and fails as soon as a connect reaches an open
    socket, or a disconnect or a call reaches a closed one. *)
Fixpoint replay (opened : bool) (log : list ws_op) : option bool :=
  match log with
  | [] => Some opened
  | ws_connect :: log' => if opened then None else replay true log'
  | ws_disconnect :: log' => if opened then replay false log' else None
  | ws_call _ :: log' => if opened then replay true log' else None
  end.

(** The socket was driven legally since it was created, and the
    [connected] flag tells its present state. *)
Definition session_ok (w : world) : Prop :=
  replay false (wire w) = Some (connected w).

(** [keeps P Q m]: started in a world satisfying [P], the computation [m]
    leaves a world satisfying [Q], whether it returns or raises. *)
Definition keeps {A} (P Q : world -> Prop) (m : M A) : Prop :=
  forall w, P w -> Q (snd (m w)).

(** A legal session whose socket is open. *)
Definition live (w : world) : Prop :=
  session_ok w /\ connected w = true.

(** The routes of a configuration in the order of the pass, each with its
    direction ([true] for an input). *)
Definition routes (c : config) : list (bool * route) :=
  (map (pair true) (inputs c) ++ map (pair false) (outputs c))%list.

(** What one route asks of OBS, given the reply [special] to
    [GetSpecialSources]: the source label and the id of the resolved
    device, or the exception that stops the route. *)
Definition route_plan (hw : host) (adm : AudioDeviceManager) (fuel : nat)
    (special : dict) (r : bool * route) : res (string * string) :=
  match dict_get special (obs_device (snd r)) with
  | None => Raise KeyError
  | Some label =>
    match fst (device_by_name hw adm fuel (device_name (snd r))
                 (Some (fst r)) true) with
    | Ret (VDev d) => Ret (label, id d)
    | Ret _ => Raise AttributeError
    | Raise e => Raise e
    | OutOfFuel => OutOfFuel
    end
  end.

(** The pass as the list of its routes dictates it: the calls it issues up
    to the first route that stops, the way it ends, and the lines the
    device lookups print on the way. *)
Section Plan.

Variable plan : bool * route -> res (string * string).

Fixpoint plan_calls (rs : list (bool * route)) : list (string * string) :=
  match rs with
  | [] => []
  | r :: rs' =>
    match plan r with
    | Ret c => c :: plan_calls rs'
    | _ => []
    end
  end.

Fixpoint plan_outcome (rs : list (bool * route)) : res unit :=
  match rs with
  | [] => Ret tt
  | r :: rs' =>
    match plan r with
    | Ret _ => plan_outcome rs'
    | Raise e => Raise e
    | OutOfFuel => OutOfFuel
    end
  end.

End Plan.

(** The lines [device_by_name] prints for a route (none when the route
    stops before the lookup). *)
Definition route_lines (hw : host) (adm : AudioDeviceManager) (fuel : nat)
    (special : dict) (r : bool * route) : list string :=
  match dict_get special (obs_device (snd r)) with
  | None => []
  | Some _ =>
    snd (device_by_name hw adm fuel (device_name (snd r)) (Some (fst r)) true)
  end.

Fixpoint plan_lines (hw : host) (adm : AudioDeviceManager) (fuel : nat)
    (special : dict) (rs : list (bool * route)) : list string :=
  match rs with
  | [] => []
  | r :: rs' =>
    (route_lines hw adm fuel special r
     ++ match route_plan hw adm fuel special r with
        | Ret _ => plan_lines hw adm fuel special rs'
        | _ => []
        end)%list
  end.

(** What a run leaves behind, against the plan of the routes [rs]. *)
Definition follows_plan (hw : host) (adm : AudioDeviceManager) (fuel : nat)
    (rs : list (bool * route)) (w : world) (r : res unit * world) : Prop :=
  let sp := special_sources (remote w) in
  fst r = plan_outcome (route_plan hw adm fuel sp) rs
  /\ set_calls (wire (snd r))
     = (set_calls (wire w) ++ plan_calls (route_plan hw adm fuel sp) rs)%list
  /\ special_sources (remote (snd r)) = sp
  /\ forall line,
       In line (stdout w) \/ In line (plan_lines hw adm fuel sp rs) ->
       In line (stdout (snd r)).

(** The methods of [OBSWebsocket] and the pass built on them. *)
Inductive operation :=
| op_connect
| op_disconnect
| op_call (r : request)
| op_get_audio_devices
| op_get_audio_device_ids
| op_get_obs_audio_device_name (device : string)
| op_get_audiodevice_settings (device_name : string)
| op_print_sources_settings (adm : AudioDeviceManager)
| op_set_audio_device_settings (c : config) (adm : AudioDeviceManager).

Definition run (hw : host) (fuel : nat) (op : operation) : M unit :=
  match op with
  | op_connect => connect
  | op_disconnect => disconnect
  | op_call r => call r ;; ret tt
  | op_get_audio_devices => get_audio_devices ;; ret tt
  | op_get_audio_device_ids => get_audio_device_ids
  | op_get_obs_audio_device_name device =>
    get_obs_audio_device_name device ;; ret tt
  | op_get_audiodevice_settings n => get_audiodevice_settings n ;; ret tt
  | op_print_sources_settings adm => print_sources_settings hw fuel adm
  | op_set_audio_device_settings c adm =>
    set_audio_device_settings hw fuel c adm
  end.

(** The request an operation sends first, for those that send one: the
    operations built on [ws.call], and the pass when it has a route. *)
Definition first_request (op : operation) : option request :=
  match op with
  | op_connect => None
  | op_disconnect => None
  | op_call r => Some r
  | op_get_audio_devices => Some GetSpecialSources
  | op_get_audio_device_ids => Some GetSpecialSources
  | op_get_obs_audio_device_name _ => Some GetSpecialSources
  | op_get_audiodevice_settings n => Some (GetSourceSettings n)
  | op_print_sources_settings _ => Some GetSpecialSources
  | op_set_audio_device_settings c _ =>
    match routes c with
    | [] => None
    | _ :: _ => Some GetSpecialSources
    end
  end.

(** [sent_since log w]: the session is connected and its socket log
    begins with [log]. *)
Definition sent_since (log : list ws_op) (w : world) : Prop :=
  connected w = true /\ exists rest, wire w = (log ++ rest)%list.

(** [unchanged_remote w0 w]: between [w0] and [w] the OBS instance was not
    modified and no [SetSourceSettings] was sent. *)
Definition unchanged_remote (w0 w : world) : Prop :=
  remote w = remote w0 /\ set_calls (wire w) = set_calls (wire w0).

(** The socket operations and the output line of a [connect] issued in the
    world [w]. *)
Definition connect_ops (w : world) : list ws_op :=
  if connected w then [] else [ws_connect].

Definition connect_lines (w : world) : list string :=
  if connected w then [] else ["OBS WebSocket connection established."].

(** ** Concrete hosts, managers and OBS instances used in examples *)

Definition headset : device := mkdevice "A1" "Headset Microphone".
Definition headset_twin : device := mkdevice "A2" "Headset Microphone".
Definition webcam_mic : device := mkdevice "A3" "default".
Definition usb_speakers : device := mkdevice "S1" "Speakers".

Definition host_plain : host :=
  mkhost [usb_speakers] [headset] usb_speakers headset.

Definition host_twins : host :=
  mkhost [usb_speakers] [headset; headset_twin] usb_speakers headset.

Definition host_odd_name : host :=
  mkhost [usb_speakers] [webcam_mic; headset] usb_speakers headset.

Definition adm_plain : AudioDeviceManager :=
  mkADM "Speakers" "Headset Microphone".

Definition adm_output_default : AudioDeviceManager :=
  mkADM "default" "Headset Microphone".

Definition config_one_bad : config :=
  mkconfig [mkroute "mic-1" "Unplugged Microphone";
            mkroute "mic-1" "Headset Microphone"]
           [mkroute "desktop-1" "Speakers"]
           None None.

Definition host_shared_id : host :=
  mkhost [usb_speakers] [mkdevice "S1" "Line In"; headset] usb_speakers
    headset.

Definition host_unplugged : host :=
  mkhost [usb_speakers] [] usb_speakers headset.

Definition obs_plain : obs :=
  mkobs [("status", "ok"); ("desktop-1", "Desktop Audio");
         ("mic-1", "Mic/Aux")]
        [("Desktop Audio", "S1"); ("Mic/Aux", "default")].

(** * Properties *)

(** ** Device lookup *)

Lemma matching_nil (prop : attr) (v : string) (l : list device) :
  (forall d, In d l -> getattr d prop <> v) -> matching prop v l = [].
Proof.
  induction l as [|d l IH]; intros H; simpl; [reflexivity|].
  destruct (String.eqb_spec (getattr d prop) v) as [E|_].
  - exfalso. apply (H d); [left; reflexivity | exact E].
  - apply IH. intros d' Hd'. apply H. right. exact Hd'.
Qed.

Lemma matching_In (prop : attr) (v : string) (l : list device) (d : device) :
  In d (matching prop v l) <-> In d l /\ getattr d prop = v.
Proof.
  unfold matching. rewrite filter_In.
  split; intros [H1 H2]; split; try assumption.
  - apply String.eqb_eq. exact H2.
  - apply String.eqb_eq. exact H2.
Qed.

Lemma select_device_named (hw : host) (self : AudioDeviceManager)
    (fuel : nat) (prop : attr) (v : string) (b : bool) :
  v <> "default" ->
  select_device hw self (S fuel) prop v (Some b)
  = first_match prop v (devices_of hw b).
Proof.
  intros Hv. apply String.eqb_neq in Hv.
  simpl. destruct b; rewrite Hv; reflexivity.
Qed.

Lemma select_device_any_direction (hw : host) (self : AudioDeviceManager)
    (fuel : nat) (prop : attr) (v : string) :
  select_device hw self (S fuel) prop v None
  = if v =? "default" then Ret VNone
    else first_match prop v (all_speakers hw ++ all_microphones hw)%list.
Proof. reflexivity. Qed.

(** C6. A native id other than ['default'] that no enumerated speaker or
    microphone carries makes [device_by_id] return [None]: neither an
    exception nor a device nor the ['default'] string. *)
Theorem device_by_id_unknown_is_None (hw : host) (self : AudioDeviceManager)
    (fuel : nat) (i : string) :
  i <> "default" ->
  (forall d, In d (all_devices hw) -> id d <> i) ->
  device_by_id hw self (S fuel) i = Ret VNone.
Proof.
  intros Hi Habsent.
  unfold device_by_id. rewrite select_device_any_direction.
  pose proof Hi as Hi'. apply String.eqb_neq in Hi'. rewrite Hi'.
  unfold first_match.
  rewrite (matching_nil attr_id i); [reflexivity|].
  exact Habsent.
Qed.

Lemma device_by_id_unknown_is_None_witness :
  device_by_id host_plain adm_plain 1 "B7" = Ret VNone.
Proof.
  apply device_by_id_unknown_is_None.
  - discriminate.
  - intros d [H|[H|[]]]; subst d; discriminate.
Defined.

(** C2. The id ['default'] never reaches the [except] branch that would
    turn it into the ['default'] string: [select_device] returns [None] for
    it first, so [device_by_id] returns [None] and the report prints the
    line for an id unknown to Windows. *)
Theorem device_by_id_default_is_None :
  (forall hw self fuel, device_by_id hw self (S fuel) "default" = Ret VNone)
  /\ stdout (snd (print_sources_settings host_plain 1 adm_plain
                    (OBSWebsocket_init obs_plain)))
     = ["OBS WebSocket connection established.";
        "Desktop Audio is set to 'Speakers'";
        "Mic/Aux is set to a device-id unknown to Windows: 'default'"].
Proof.
  split.
  - intros hw self fuel. reflexivity.
  - vm_compute. reflexivity.
Qed.

(** C3. [get_default] hands the name of the default output to a search
    among the microphones: the recursive call passes [True] for [is_input]
    in both branches.  With one speaker named "Speakers" and no microphone
    of that name the lookup of the default output fails, although the
    speakers contain the device. *)
Theorem get_default_output_searches_microphones :
  (forall hw self fuel,
     get_default hw self (S (S fuel)) (Some false)
     = if default_output self =? "default"
       then select_device hw self fuel attr_name (default_input self)
              (Some true)
       else first_match attr_name (default_output self)
              (all_microphones hw))
  /\ (forall hw self fuel,
     get_default hw self (S (S fuel)) (Some true)
     = if default_input self =? "default"
       then select_device hw self fuel attr_name (default_input self)
              (Some true)
       else first_match attr_name (default_input self)
              (all_microphones hw))
  /\ get_default host_plain adm_plain 2 (Some false) = Raise IndexError
  /\ first_match attr_name (default_output adm_plain)
       (all_speakers host_plain) = Ret (VDev usb_speakers).
Proof.
  split; [|split; [|split]].
  - intros hw self fuel. reflexivity.
  - intros hw self fuel. reflexivity.
  - reflexivity.
  - reflexivity.
Qed.

(** ** Termination of the lookup *)

Lemma first_match_finishes (prop : attr) (v : string) (l : list device) :
  first_match prop v l <> OutOfFuel.
Proof.
  unfold first_match. destruct (matching prop v l); discriminate.
Qed.

Lemma select_device_stable (hw : host) (self : AudioDeviceManager)
    (prop : attr) (v : string) (is_input : option bool) :
  default_input self <> "default" ->
  default_output self <> "default" ->
  select_device hw self 2 prop v is_input <> OutOfFuel
  /\ forall fuel, 2 <= fuel ->
       select_device hw self fuel prop v is_input
       = select_device hw self 2 prop v is_input.
Proof.
  intros Hin Hout.
  apply String.eqb_neq in Hin. apply String.eqb_neq in Hout.
  split.
  - simpl. destruct is_input as [[|]|]; destruct (v =? "default");
      rewrite ?Hin, ?Hout;
      first [apply first_match_finishes | discriminate].
  - intros [|[|fuel]] Hfuel; [lia | lia |].
    simpl. destruct is_input as [[|]|]; destruct (v =? "default");
      rewrite ?Hin, ?Hout; reflexivity.
Qed.

Lemma select_device_default_input_loops (hw : host)
    (self : AudioDeviceManager) :
  default_input self = "default" ->
  forall fuel,
    select_device hw self fuel attr_name "default" (Some true) = OutOfFuel.
Proof.
  intros Hin fuel. induction fuel as [|fuel IH]; [reflexivity|].
  simpl. rewrite Hin. exact IH.
Qed.

(** C10, against the claim as stated.  Here the name of the default output
    is ['default'], and the lookup of ['default'] among the outputs still
    returns: its recursive call moves to the inputs, whose default is an
    ordinary name. *)
Lemma default_output_named_default_returns :
  default_output adm_output_default = "default"
  /\ select_device host_plain adm_output_default 3 attr_name "default"
       (Some false) = Ret (VDev headset)
  /\ select_device host_plain adm_output_default 3 attr_name "default"
       (Some true) = Ret (VDev headset).
Proof. repeat split. Qed.

(** C10, amended.  When neither default name is the string ['default'],
    [select_device] and [device_by_name] finish for every argument: a
    recursion depth of two is enough and a larger budget changes nothing.
    When the name of the default input is ['default'], whatever the name of
    the default output, [select_device('name', 'default', True)] calls
    itself with the same arguments, so that no recursion depth lets it
    finish (an interpreter with a recursion limit ends the call at that
    limit, with [RecursionError] in CPython). *)
Theorem lookup_terminates_unless_default_input_is_default
    (hw : host) (self : AudioDeviceManager) :
  (default_input self <> "default" ->
   default_output self <> "default" ->
   (forall prop v is_input,
      exists r, r <> OutOfFuel
        /\ forall fuel, 2 <= fuel ->
             select_device hw self fuel prop v is_input = r)
   /\ (forall n is_input replace_default,
      exists r, fst r <> OutOfFuel
        /\ forall fuel, 2 <= fuel ->
             device_by_name hw self fuel n is_input replace_default = r))
  /\ (default_input self = "default" ->
      (forall fuel,
         select_device hw self (S fuel) attr_name "default" (Some true)
         = select_device hw self fuel attr_name "default" (Some true))
      /\ (forall fuel,
         select_device hw self fuel attr_name "default" (Some true)
         = OutOfFuel)).
Proof.
  split.
  - intros Hin Hout. split.
    + intros prop v is_input.
      destruct (select_device_stable hw self prop v is_input Hin Hout)
        as [Hfin Hsame].
      exists (select_device hw self 2 prop v is_input). split; assumption.
    + intros n is_input replace_default.
      exists (device_by_name hw self 2 n is_input replace_default). split.
      * unfold device_by_name, get_default.
        destruct (replace_default && (n =? "default")).
        -- apply (select_device_stable hw self attr_name "default" is_input
                    Hin Hout).
        -- pose proof (proj1 (select_device_stable hw self attr_name n
                                is_input Hin Hout)) as Hfin.
           destruct (select_device hw self 2 attr_name n is_input)
             as [a|[| | |]|]; simpl; congruence.
      * intros fuel Hfuel. unfold device_by_name, get_default.
        rewrite (proj2 (select_device_stable hw self attr_name "default"
                          is_input Hin Hout) fuel Hfuel).
        rewrite (proj2 (select_device_stable hw self attr_name n
                          is_input Hin Hout) fuel Hfuel).
        reflexivity.
  - intros Hin. split.
    + intros fuel. simpl. rewrite Hin. reflexivity.
    + apply select_device_default_input_loops. exact Hin.
Qed.

Lemma lookup_terminates_witness :
  (select_device host_plain adm_plain 5 attr_name "default" (Some false)
   = select_device host_plain adm_plain 2 attr_name "default" (Some false))
  /\ select_device host_plain (mkADM "default" "default") 40 attr_name
       "default" (Some true) = OutOfFuel.
Proof.
  split.
  - destruct (lookup_terminates_unless_default_input_is_default
                host_plain adm_plain) as [Hfin _].
    destruct Hfin as [Hsel _]; [discriminate | discriminate |].
    destruct (Hsel attr_name "default" (Some false)) as [r [_ Hr]].
    rewrite (Hr 5), (Hr 2); [reflexivity | lia | lia].
  - destruct (lookup_terminates_unless_default_input_is_default
                host_plain (mkADM "default" "default")) as [_ Hloop].
    apply Hloop. reflexivity.
Defined.

(** ** Resolution by name *)

(** C4, against the claim as stated.  Two microphones share a name: the
    lookup returns the first of them and prints nothing.  And a microphone
    that is the only one named ['default'] is not what a lookup of
    ['default'] returns. *)
Lemma duplicate_name_takes_first_silently :
  matching attr_name "Headset Microphone" (all_microphones host_twins)
  = [headset; headset_twin]
  /\ device_by_name host_twins adm_plain 1 "Headset Microphone" (Some true)
       false = (Ret (VDev headset), [])
  /\ matching attr_name "default" (all_microphones host_odd_name)
     = [webcam_mic]
  /\ device_by_name host_odd_name adm_plain 2 "default" (Some true) false
     = (Ret (VDev headset), []).
Proof. repeat split. Qed.

Lemma first_named_device (hw : host) (self : AudioDeviceManager)
    (fuel : nat) (n : string) (b replace_default : bool)
    (d : device) (rest : list device) :
  n <> "default" ->
  matching attr_name n (devices_of hw b) = d :: rest ->
  device_by_name hw self (S fuel) n (Some b) replace_default
  = (Ret (VDev d), []).
Proof.
  intros Hn Hmatch. unfold device_by_name.
  pose proof Hn as Hn'. apply String.eqb_neq in Hn'.
  rewrite Hn', andb_false_r.
  rewrite select_device_named by exact Hn.
  unfold first_match. rewrite Hmatch. reflexivity.
Qed.

(** C4, amended.  For a name other than ['default'] carried by at least one
    device of the requested direction, [device_by_name] returns the first
    such device in enumeration order and prints nothing; when exactly one
    device carries the name, that is the unique record. *)
Theorem device_by_name_first_match (hw : host) (self : AudioDeviceManager)
    (fuel : nat) (n : string) (b replace_default : bool)
    (d : device) (rest : list device) :
  n <> "default" ->
  matching attr_name n (devices_of hw b) = d :: rest ->
  device_by_name hw self (S fuel) n (Some b) replace_default
  = (Ret (VDev d), [])
  /\ (rest = [] ->
      forall d', In d' (devices_of hw b) -> name d' = n -> d' = d).
Proof.
  intros Hn Hmatch. split.
  - apply (first_named_device hw self fuel n b replace_default d rest);
      assumption.
  - intros Hrest d' Hd' Hname. subst rest.
    assert (Hin : In d' (matching attr_name n (devices_of hw b))).
    { apply matching_In. split; assumption. }
    rewrite Hmatch in Hin. destruct Hin as [E|[]]. symmetry. exact E.
Qed.

Lemma device_by_name_first_match_witness :
  device_by_name host_twins adm_plain 1 "Headset Microphone" (Some true)
    true = (Ret (VDev headset), []).
Proof.
  apply (device_by_name_first_match host_twins adm_plain 0
           "Headset Microphone" true true headset [headset_twin]).
  - discriminate.
  - reflexivity.
Defined.

Lemma device_by_name_unresolved (hw : host) (self : AudioDeviceManager)
    (fuel : nat) (n : string) (b replace_default : bool) :
  n <> "default" ->
  matching attr_name n (devices_of hw b) = [] ->
  device_by_name hw self (S fuel) n (Some b) replace_default
  = (Raise ValueError,
     ("Windows does not have a device called " ++ n)
       :: print_device_listing hw false).
Proof.
  intros Hn Hmatch. unfold device_by_name.
  pose proof Hn as Hn'. apply String.eqb_neq in Hn'.
  rewrite Hn', andb_false_r.
  rewrite select_device_named by exact Hn.
  unfold first_match. rewrite Hmatch. reflexivity.
Qed.

Lemma listing_covers_direction (hw : host) (b : bool) (d : device) :
  In d (devices_of hw b) -> In (name d) (print_device_listing hw false).
Proof.
  intros Hd. unfold print_device_listing. apply in_or_app.
  destruct b; simpl in Hd.
  - right. destruct (all_microphones hw) as [|m ms]; [destruct Hd|].
    simpl. right.
    change (In (format_device false d) (map (format_device false) (m :: ms))).
    apply in_map. exact Hd.
  - left. destruct (all_speakers hw) as [|m ms]; [destruct Hd|].
    simpl. right.
    change (In (format_device false d) (map (format_device false) (m :: ms))).
    apply in_map. exact Hd.
Qed.

(** ** The session *)

Lemma replay_app (log1 log2 : list ws_op) :
  forall opened,
    replay opened (log1 ++ log2)
    = match replay opened log1 with
      | Some opened' => replay opened' log2
      | None => None
      end.
Proof.
  induction log1 as [|op log1 IH]; intros opened; simpl; [reflexivity|].
  destruct op; destruct opened; auto.
Qed.

Lemma live_session_ok (w : world) : live w -> session_ok w.
Proof. intros [H _]. exact H. Qed.

Section Keeps.

Context {A B : Type}.

Lemma keeps_ret (P : world -> Prop) (a : A) : keeps P P (ret a).
Proof. intros w H. exact H. Qed.

Lemma keeps_raise (P : world -> Prop) (e : exn) :
  keeps P P (raise e : M A).
Proof. intros w H. exact H. Qed.

Lemma keeps_bind (P Q R : world -> Prop) (m : M A) (k : A -> M B) :
  keeps P Q m ->
  (forall w, Q w -> R w) ->
  (forall a, keeps Q R (k a)) ->
  keeps P R (bind m k).
Proof.
  intros Hm HQR Hk w Hw. unfold bind.
  specialize (Hm w Hw).
  destruct (m w) as [[a|e|] w']; simpl in *.
  - apply Hk. exact Hm.
  - apply HQR. exact Hm.
  - apply HQR. exact Hm.
Qed.

Lemma keeps_pre (P P' Q : world -> Prop) (m : M A) :
  (forall w, P' w -> P w) -> keeps P Q m -> keeps P' Q m.
Proof. intros HP Hm w Hw. apply Hm. apply HP. exact Hw. Qed.

Lemma keeps_post (P Q Q' : world -> Prop) (m : M A) :
  (forall w, Q w -> Q' w) -> keeps P Q m -> keeps P Q' m.
Proof. intros HQ Hm w Hw. apply HQ. apply Hm. exact Hw. Qed.

Lemma keeps_for_each (P : world -> Prop) (l : list A)
    (body : A -> M unit) :
  (forall x, keeps P P (body x)) -> keeps P P (for_each l body).
Proof.
  intros Hbody. induction l as [|x l IH]; simpl.
  - intros w Hw. exact Hw.
  - intros w Hw. unfold bind.
    specialize (Hbody x w Hw).
    destruct (body x w) as [[[]|e|] w']; simpl in *; auto.
Qed.

End Keeps.

Lemma keeps_print_session (s : string) :
  keeps session_ok session_ok (print s).
Proof. intros w H. exact H. Qed.

Lemma keeps_print_live (s : string) : keeps live live (print s).
Proof. intros w H. exact H. Qed.

Lemma keeps_lift_session {A} (p : res A * list string) :
  keeps session_ok session_ok (lift p).
Proof. intros w H. exact H. Qed.

Lemma keeps_lift_live {A} (p : res A * list string) :
  keeps live live (lift p).
Proof. intros w H. exact H. Qed.

Lemma connect_opens : keeps session_ok live connect.
Proof.
  intros w H. unfold session_ok in H.
  unfold live, session_ok, connect, bind, get_connected, socket,
    set_connected, print.
  destruct (connected w) eqn:E; simpl.
  - rewrite E. split; [exact H | reflexivity].
  - rewrite replay_app, H. split; reflexivity.
Qed.

Lemma disconnect_closes : keeps session_ok session_ok disconnect.
Proof.
  intros w H. unfold session_ok in H.
  unfold session_ok, disconnect, bind, get_connected, socket,
    set_connected, print.
  destruct (connected w) eqn:E; simpl.
  - rewrite replay_app, H. reflexivity.
  - rewrite E. exact H.
Qed.

Lemma socket_call_live (r : request) : keeps live live (socket_call r).
Proof.
  intros w [H E]. unfold session_ok in H.
  unfold live, session_ok, socket_call.
  destruct (obs_respond r (remote w)) as [resp o]. simpl.
  rewrite replay_app, H, E. split; reflexivity.
Qed.

Lemma settings_device_id_live (settings : response) :
  keeps live live (settings_device_id settings).
Proof.
  destruct settings as [d|[i|]|]; first [apply keeps_ret | apply keeps_raise].
Qed.

(** An operation that begins with [connect] and then only uses the open
    socket. *)
Lemma connect_then {A} (m : M A) :
  keeps live live m -> keeps session_ok live (connect ;; m).
Proof.
  intros Hm. apply (keeps_bind session_ok live live).
  - apply connect_opens.
  - auto.
  - intros _. exact Hm.
Qed.

Lemma from_live {A} (m : M A) :
  keeps session_ok live m -> keeps live live m.
Proof. apply keeps_pre. apply live_session_ok. Qed.

(** One step of a computation that keeps the session live: [tac] proves
    the first action, the continuation is left as the goal. *)
Ltac then_live tac :=
  apply (keeps_bind live live live); [tac | auto | ].

(** The same for a computation started before the socket is known to be
    open, whose first action opens it. *)
Ltac opens_then tac :=
  apply (keeps_bind session_ok live live); [tac | auto | ].

(** An operation that leaves the session live leaves it legal. *)
Ltac legal_from_live :=
  apply (keeps_post session_ok live session_ok); [apply live_session_ok | ].

Lemma call_live (r : request) : keeps session_ok live (call r).
Proof. apply connect_then. apply socket_call_live. Qed.

Lemma get_audio_devices_live : keeps session_ok live get_audio_devices.
Proof.
  apply connect_then.
  then_live ltac:(apply socket_call_live).
  intros [d| |]; try apply keeps_raise.
  destruct (dict_get d "status"); [apply keeps_ret | apply keeps_raise].
Qed.

Lemma get_obs_audio_device_name_live (device : string) :
  keeps session_ok live (get_obs_audio_device_name device).
Proof.
  apply connect_then.
  then_live ltac:(apply socket_call_live).
  intros [d| |]; try apply keeps_raise.
  destruct (dict_get d device); [apply keeps_ret | apply keeps_raise].
Qed.

Lemma get_audiodevice_settings_live (device_name : string) :
  keeps session_ok live (get_audiodevice_settings device_name).
Proof. apply connect_then. apply socket_call_live. Qed.

Lemma print_sources_settings_live (hw : host) (fuel : nat)
    (adm : AudioDeviceManager) :
  keeps session_ok live (print_sources_settings hw fuel adm).
Proof.
  apply connect_then.
  then_live ltac:(apply from_live, get_audio_devices_live).
  intros device_names. apply keeps_for_each. intros obs_device_name.
  then_live ltac:(apply from_live, get_audiodevice_settings_live).
  intros settings.
  then_live ltac:(apply settings_device_id_live).
  intros device_id.
  then_live ltac:(apply keeps_lift_live).
  intros device.
  destruct (negb (truthy device)); [apply keeps_print_live|].
  destruct (value_eq_str device "default"); [apply keeps_print_live|].
  destruct device; first [apply keeps_print_live | apply keeps_raise].
Qed.

Lemma get_audio_device_ids_live : keeps session_ok live get_audio_device_ids.
Proof.
  opens_then ltac:(apply get_audio_devices_live).
  intros device_names. apply keeps_for_each. intros device_name.
  then_live ltac:(apply from_live, get_audiodevice_settings_live).
  intros settings.
  then_live ltac:(apply settings_device_id_live).
  intros device_id. apply keeps_print_live.
Qed.

Lemma set_obs_source_live (source_name : string) (device : value) :
  keeps live live (set_obs_source source_name device).
Proof.
  destruct device as [|s|d]; try apply keeps_raise.
  then_live ltac:(apply keeps_print_live).
  intros _.
  then_live ltac:(apply from_live, call_live).
  intros _. apply keeps_ret.
Qed.

Lemma set_route_live (hw : host) (fuel : nat) (adm : AudioDeviceManager)
    (b : bool) (conf : route) :
  keeps session_ok live (set_route hw fuel adm b conf).
Proof.
  opens_then ltac:(apply get_obs_audio_device_name_live).
  intros source_name.
  then_live ltac:(apply keeps_lift_live).
  intros device. apply set_obs_source_live.
Qed.

Lemma set_audio_device_settings_session (hw : host) (fuel : nat)
    (c : config) (adm : AudioDeviceManager) :
  keeps session_ok session_ok (set_audio_device_settings hw fuel c adm).
Proof.
  assert (Hloop : forall b l,
             keeps session_ok session_ok
               (for_each l (set_route hw fuel adm b))).
  { intros b l. apply keeps_for_each. intros conf.
    legal_from_live. apply set_route_live. }
  unfold set_audio_device_settings.
  apply (keeps_bind session_ok session_ok session_ok); [| auto |].
  - destruct (Nat.eqb (length (inputs c)) 0); [apply keeps_ret|].
    apply (keeps_bind session_ok session_ok session_ok);
      [apply keeps_print_session | auto | intros _; apply Hloop].
  - intros _.
    destruct (Nat.eqb (length (outputs c)) 0); [apply keeps_ret|].
    apply (keeps_bind session_ok session_ok session_ok);
      [apply keeps_print_session | auto | intros _; apply Hloop].
Qed.

(** One step of a computation that keeps an invariant [P] throughout. *)
Ltac then_same tac :=
  match goal with
  | |- keeps ?P ?P (bind _ _) => apply (keeps_bind P P P); [tac | auto | ]
  end.

Lemma connect_run (w : world) :
  connect w
  = (Ret tt,
     mkworld true (wire w ++ connect_ops w) (remote w)
       (stdout w ++ connect_lines w)).
Proof.
  destruct w as [c log o out].
  unfold connect, bind, get_connected, socket, set_connected, print, ret,
    connect_ops, connect_lines.
  destruct c; simpl; rewrite ?app_nil_r; reflexivity.
Qed.

Lemma get_audio_devices_run (w : world) :
  get_audio_devices w
  = (match dict_get (special_sources (remote w)) "status" with
     | Some _ =>
       Ret (dict_values (dict_del (special_sources (remote w)) "status"))
     | None => Raise KeyError
     end,
     mkworld true (wire w ++ connect_ops w ++ [ws_call GetSpecialSources])
       (remote w) (stdout w ++ connect_lines w)).
Proof.
  destruct w as [c log [sp ss] out].
  unfold get_audio_devices, connect, bind, get_connected, socket,
    set_connected, socket_call, print, ret, raise, connect_ops,
    connect_lines.
  destruct c; simpl; destruct (dict_get sp "status");
    rewrite ?app_nil_r, <- ?app_assoc; reflexivity.
Qed.

Lemma get_obs_audio_device_name_run (device : string) (w : world) :
  get_obs_audio_device_name device w
  = (match dict_get (special_sources (remote w)) device with
     | Some label => Ret label
     | None => Raise KeyError
     end,
     mkworld true (wire w ++ connect_ops w ++ [ws_call GetSpecialSources])
       (remote w) (stdout w ++ connect_lines w)).
Proof.
  destruct w as [c log [sp ss] out].
  unfold get_obs_audio_device_name, connect, bind, get_connected, socket,
    set_connected, socket_call, print, ret, raise, connect_ops,
    connect_lines.
  destruct c; simpl; destruct (dict_get sp device);
    rewrite ?app_nil_r, <- ?app_assoc; reflexivity.
Qed.

Lemma call_run (r : request) (w : world) :
  call r w
  = (Ret (fst (obs_respond r (remote w))),
     mkworld true (wire w ++ connect_ops w ++ [ws_call r])
       (snd (obs_respond r (remote w))) (stdout w ++ connect_lines w)).
Proof.
  destruct w as [c log o out].
  unfold call, connect, bind, get_connected, socket, set_connected,
    socket_call, print, ret, connect_ops, connect_lines.
  destruct c; simpl; destruct (obs_respond r o) as [resp o'];
    simpl; rewrite ?app_nil_r, <- ?app_assoc; reflexivity.
Qed.

(** *** What has been sent stays sent *)

Lemma sent_since_begin (log : list ws_op) (o : obs) (out : list string) :
  sent_since log (mkworld true log o out).
Proof. split; [reflexivity|]. exists []. symmetry. apply app_nil_r. Qed.

Lemma sent_since_eq (log log' : list ws_op) (w : world) :
  log = log' -> sent_since log w -> sent_since log' w.
Proof. intros E H. rewrite <- E. exact H. Qed.

Lemma sent_bind {A B} (log : list ws_op) (m : M A) (k : A -> M B)
    (w : world) :
  sent_since log (snd (m w)) ->
  (forall a, keeps (sent_since log) (sent_since log) (k a)) ->
  sent_since log (snd (bind m k w)).
Proof.
  intros Hm Hk. unfold bind.
  destruct (m w) as [[a|e|] w']; simpl in *; [apply Hk|..]; exact Hm.
Qed.

Lemma connect_sent (log : list ws_op) :
  keeps (sent_since log) (sent_since log) connect.
Proof.
  intros w [Hc Hrest]. rewrite connect_run. unfold connect_ops, connect_lines.
  rewrite Hc. cbn [snd]. split; [reflexivity|].
  destruct Hrest as [rest Hrest]. exists rest.
  cbn [wire]. rewrite app_nil_r. exact Hrest.
Qed.

Lemma socket_call_sent (log : list ws_op) (r : request) :
  keeps (sent_since log) (sent_since log) (socket_call r).
Proof.
  intros w [Hc [rest Hrest]]. unfold socket_call.
  destruct (obs_respond r (remote w)) as [resp o]. cbn [snd].
  split; [exact Hc|]. exists (rest ++ [ws_call r])%list.
  cbn [wire]. rewrite Hrest, app_assoc. reflexivity.
Qed.

Lemma print_sent (log : list ws_op) (s : string) :
  keeps (sent_since log) (sent_since log) (print s).
Proof. intros w H. exact H. Qed.

Lemma lift_sent {A} (log : list ws_op) (p : res A * list string) :
  keeps (sent_since log) (sent_since log) (lift p).
Proof. intros w H. exact H. Qed.

Lemma settings_device_id_sent (log : list ws_op) (settings : response) :
  keeps (sent_since log) (sent_since log) (settings_device_id settings).
Proof.
  destruct settings as [d|[i|]|]; first [apply keeps_ret | apply keeps_raise].
Qed.

Lemma get_audiodevice_settings_sent (log : list ws_op) (n : string) :
  keeps (sent_since log) (sent_since log) (get_audiodevice_settings n).
Proof.
  unfold get_audiodevice_settings.
  then_same ltac:(apply connect_sent). intros _. apply socket_call_sent.
Qed.

Lemma get_obs_audio_device_name_sent (log : list ws_op) (device : string) :
  keeps (sent_since log) (sent_since log) (get_obs_audio_device_name device).
Proof.
  unfold get_obs_audio_device_name.
  then_same ltac:(apply connect_sent). intros _.
  then_same ltac:(apply socket_call_sent).
  intros [d| |]; try apply keeps_raise.
  destruct (dict_get d device); [apply keeps_ret | apply keeps_raise].
Qed.

Lemma set_obs_source_sent (log : list ws_op) (source_name : string)
    (device : value) :
  keeps (sent_since log) (sent_since log) (set_obs_source source_name device).
Proof.
  destruct device as [|s|d]; try apply keeps_raise.
  unfold set_obs_source, call.
  then_same ltac:(apply print_sent). intros _.
  then_same ltac:(then_same ltac:(apply connect_sent); intros _;
                  apply socket_call_sent).
  intros _. apply keeps_ret.
Qed.

Lemma set_route_sent (log : list ws_op) (hw : host) (fuel : nat)
    (adm : AudioDeviceManager) (b : bool) (conf : route) :
  keeps (sent_since log) (sent_since log) (set_route hw fuel adm b conf).
Proof.
  unfold set_route.
  then_same ltac:(apply get_obs_audio_device_name_sent). intros source_name.
  then_same ltac:(apply lift_sent). intros device.
  apply set_obs_source_sent.
Qed.

Lemma guarded_loop_sent (log : list ws_op) (hw : host) (fuel : nat)
    (adm : AudioDeviceManager) (b : bool) (l : list route)
    (title : string) :
  keeps (sent_since log) (sent_since log)
    (if Nat.eqb (length l) 0 then ret tt
     else print title ;; for_each l (set_route hw fuel adm b)).
Proof.
  destruct (Nat.eqb (length l) 0); [apply keeps_ret|].
  then_same ltac:(apply print_sent). intros _.
  apply keeps_for_each. intros conf. apply set_route_sent.
Qed.

Lemma report_loop_sent (log : list ws_op) (hw : host) (fuel : nat)
    (adm : AudioDeviceManager) (device_names : list string) :
  keeps (sent_since log) (sent_since log)
    (for_each device_names (fun obs_device_name =>
       settings <- get_audiodevice_settings obs_device_name ;;
       device_id <- settings_device_id settings ;;
       device <- lift (device_by_id hw adm fuel device_id, []) ;;
       if negb (truthy device)
       then print (obs_device_name
                     ++ " is set to a device-id unknown to Windows: '"
                     ++ device_id ++ "'")
       else if value_eq_str device "default"
       then print (obs_device_name ++ " is set to 'default'")
       else match device with
            | VDev d =>
              print (obs_device_name ++ " is set to '" ++ name d ++ "'")
            | _ => raise AttributeError
            end)).
Proof.
  apply keeps_for_each. intros obs_device_name.
  then_same ltac:(apply get_audiodevice_settings_sent). intros settings.
  then_same ltac:(apply settings_device_id_sent). intros device_id.
  then_same ltac:(apply lift_sent). intros device.
  destruct (negb (truthy device)); [apply print_sent|].
  destruct (value_eq_str device "default"); [apply print_sent|].
  destruct device; first [apply print_sent | apply keeps_raise].
Qed.

Lemma ids_loop_sent (log : list ws_op) (device_names : list string) :
  keeps (sent_since log) (sent_since log)
    (for_each device_names (fun device_name =>
       settings <- get_audiodevice_settings device_name ;;
       device_id <- settings_device_id settings ;;
       print (device_name ++ " is set to '" ++ device_id ++ "'"))).
Proof.
  apply keeps_for_each. intros device_name.
  then_same ltac:(apply get_audiodevice_settings_sent). intros settings.
  then_same ltac:(apply settings_device_id_sent). intros device_id.
  apply print_sent.
Qed.

(** *** Each operation connects if it must and sends its request *)

Lemma call_requests (r : request) (w : world) :
  sent_since (wire w ++ connect_ops w ++ [ws_call r]) (snd (call r w)).
Proof.
  rewrite call_run. cbn [snd]. rewrite app_assoc. apply sent_since_begin.
Qed.

Lemma get_audiodevice_settings_requests (n : string) (w : world) :
  sent_since (wire w ++ connect_ops w ++ [ws_call (GetSourceSettings n)])
    (snd (get_audiodevice_settings n w)).
Proof. apply (call_requests (GetSourceSettings n) w). Qed.

Lemma get_audio_devices_requests (w : world) :
  sent_since (wire w ++ connect_ops w ++ [ws_call GetSpecialSources])
    (snd (get_audio_devices w)).
Proof.
  rewrite get_audio_devices_run. cbn [snd]. apply sent_since_begin.
Qed.

Lemma get_obs_audio_device_name_requests (device : string) (w : world) :
  sent_since (wire w ++ connect_ops w ++ [ws_call GetSpecialSources])
    (snd (get_obs_audio_device_name device w)).
Proof.
  rewrite get_obs_audio_device_name_run. cbn [snd]. apply sent_since_begin.
Qed.

Lemma get_audio_device_ids_requests (w : world) :
  sent_since (wire w ++ connect_ops w ++ [ws_call GetSpecialSources])
    (snd (get_audio_device_ids w)).
Proof.
  unfold get_audio_device_ids. apply sent_bind.
  - apply get_audio_devices_requests.
  - intros device_names. apply ids_loop_sent.
Qed.

Lemma print_sources_settings_requests (hw : host) (fuel : nat)
    (adm : AudioDeviceManager) (w : world) :
  sent_since (wire w ++ connect_ops w ++ [ws_call GetSpecialSources])
    (snd (print_sources_settings hw fuel adm w)).
Proof.
  unfold print_sources_settings.
  unfold bind at 1. rewrite connect_run.
  apply sent_bind.
  - apply (sent_since_eq
             ((wire w ++ connect_ops w) ++ [] ++ [ws_call GetSpecialSources])).
    + cbn [app]. rewrite <- app_assoc. reflexivity.
    + apply (get_audio_devices_requests
               (mkworld true (wire w ++ connect_ops w) (remote w)
                  (stdout w ++ connect_lines w))).
  - intros device_names. apply report_loop_sent.
Qed.

Lemma set_route_requests (hw : host) (fuel : nat) (adm : AudioDeviceManager)
    (b : bool) (conf : route) (w : world) :
  sent_since (wire w ++ connect_ops w ++ [ws_call GetSpecialSources])
    (snd (set_route hw fuel adm b conf w)).
Proof.
  unfold set_route. apply sent_bind.
  - apply get_obs_audio_device_name_requests.
  - intros source_name.
    then_same ltac:(apply lift_sent). intros device.
    apply set_obs_source_sent.
Qed.

Lemma first_loop_requests (hw : host) (fuel : nat) (adm : AudioDeviceManager)
    (b : bool) (conf : route) (l : list route) (title : string) (w : world) :
  sent_since (wire w ++ connect_ops w ++ [ws_call GetSpecialSources])
    (snd ((if Nat.eqb (length (conf :: l)) 0 then ret tt
           else print title ;;
                for_each (conf :: l) (set_route hw fuel adm b)) w)).
Proof.
  cbn [length Nat.eqb for_each].
  unfold bind at 1. unfold print at 1.
  apply sent_bind.
  - match goal with
    | |- sent_since _ (snd (set_route _ _ _ _ _ ?w0)) =>
      apply (set_route_requests hw fuel adm b conf w0)
    end.
  - intros _. apply keeps_for_each. intros conf'. apply set_route_sent.
Qed.

Lemma set_audio_device_settings_requests (hw : host) (fuel : nat)
    (c : config) (adm : AudioDeviceManager) (w : world)
    (r : bool * route) (rs : list (bool * route)) :
  routes c = r :: rs ->
  sent_since (wire w ++ connect_ops w ++ [ws_call GetSpecialSources])
    (snd (set_audio_device_settings hw fuel c adm w)).
Proof.
  unfold routes, set_audio_device_settings. intros Hroutes.
  destruct (inputs c) as [|i ins].
  - destruct (outputs c) as [|o outs]; [discriminate|].
    unfold bind at 1. cbn [length Nat.eqb]. unfold ret at 1.
    apply first_loop_requests.
  - apply sent_bind.
    + apply first_loop_requests.
    + intros _. apply guarded_loop_sent.
Qed.

(** C7.  [connect] on a connected session and [disconnect] on a
    disconnected one change nothing.  Every operation of the session, run
    on a session whose socket has been driven legally so far, leaves such a
    session: the socket's connect is never repeated while it is open, and
    no call reaches a closed socket.  Every operation that sends a request
    ([call], [get_audio_devices], [get_audio_device_ids],
    [get_obs_audio_device_name], [get_audiodevice_settings],
    [print_sources_settings], and the pass when it has a route) connects
    first if the session is not connected, then sends its request, and
    leaves the session connected, whether it returns or raises. *)
Theorem session_connects_on_demand (hw : host) (fuel : nat)
    (op : operation) (w : world) :
  session_ok w ->
  session_ok (snd (run hw fuel op w))
  /\ (forall log o out,
        connect (mkworld true log o out)
        = (Ret tt, mkworld true log o out))
  /\ (forall log o out,
        disconnect (mkworld false log o out)
        = (Ret tt, mkworld false log o out))
  /\ (forall r : request,
        connected (snd (call r w)) = true
        /\ exists resp,
             wire (snd (call r w))
             = ((wire w ++ if connected w then [] else [ws_connect])
                  ++ [ws_call r])%list
             /\ fst (call r w) = Ret resp)
  /\ (forall r : request,
        first_request op = Some r ->
        connected (snd (run hw fuel op w)) = true
        /\ exists rest,
             wire (snd (run hw fuel op w))
             = (wire w ++ (if connected w then [] else [ws_connect])
                  ++ ws_call r :: rest)%list).
Proof.
  intros Hw. split; [|split; [|split; [|split]]].
  - revert w Hw. change (keeps session_ok session_ok (run hw fuel op)).
    destruct op; simpl.
    + legal_from_live.
      apply connect_opens.
    + apply disconnect_closes.
    + legal_from_live.
      opens_then ltac:(apply call_live).
      intros; apply keeps_ret.
    + legal_from_live.
      opens_then ltac:(apply get_audio_devices_live).
      intros; apply keeps_ret.
    + legal_from_live.
      apply get_audio_device_ids_live.
    + legal_from_live.
      opens_then ltac:(apply get_obs_audio_device_name_live).
      intros; apply keeps_ret.
    + legal_from_live.
      opens_then ltac:(apply get_audiodevice_settings_live).
      intros; apply keeps_ret.
    + legal_from_live.
      apply print_sources_settings_live.
    + apply set_audio_device_settings_session.
  - reflexivity.
  - reflexivity.
  - intros r. unfold call, connect, bind, get_connected, socket,
      set_connected, print, socket_call.
    destruct (connected w) eqn:E; simpl;
      destruct (obs_respond r (remote w)) as [resp o]; simpl.
    + split; [exact E|]. exists resp. rewrite app_nil_r.
      split; reflexivity.
    + split; [reflexivity|]. exists resp. split; reflexivity.
  - intros r Hr.
    assert (Hsent : sent_since (wire w ++ connect_ops w ++ [ws_call r])
                      (snd (run hw fuel op w))).
    { destruct op; simpl in Hr; try discriminate.
      - injection Hr as <-. simpl. apply sent_bind;
          [apply call_requests | intros; apply keeps_ret].
      - injection Hr as <-. simpl. apply sent_bind;
          [apply get_audio_devices_requests | intros; apply keeps_ret].
      - injection Hr as <-. apply get_audio_device_ids_requests.
      - injection Hr as <-. simpl. apply sent_bind;
          [apply get_obs_audio_device_name_requests
          | intros; apply keeps_ret].
      - injection Hr as <-. simpl. apply sent_bind;
          [apply get_audiodevice_settings_requests
          | intros; apply keeps_ret].
      - injection Hr as <-. apply print_sources_settings_requests.
      - destruct (routes c) as [|r0 rs] eqn:Hroutes; [discriminate|].
        injection Hr as <-.
        apply (set_audio_device_settings_requests hw fuel c adm w r0 rs
                 Hroutes). }
    destruct Hsent as [Hc [rest Hrest]]. split; [exact Hc|].
    exists rest. rewrite Hrest. unfold connect_ops.
    rewrite <- !app_assoc. reflexivity.
Qed.

Lemma session_connects_on_demand_witness :
  session_ok
    (snd (run host_plain 1 (op_print_sources_settings adm_plain)
            (OBSWebsocket_init obs_plain)))
  /\ wire (snd (run host_plain 1 (op_get_audiodevice_settings "Mic/Aux")
                  (OBSWebsocket_init obs_plain)))
     = [ws_connect; ws_call (GetSourceSettings "Mic/Aux")].
Proof.
  split.
  - apply (session_connects_on_demand host_plain 1
             (op_print_sources_settings adm_plain)
             (OBSWebsocket_init obs_plain)).
    reflexivity.
  - reflexivity.
Defined.

(** ** The synchronization pass *)

Lemma set_calls_app (log1 log2 : list ws_op) :
  set_calls (log1 ++ log2) = (set_calls log1 ++ set_calls log2)%list.
Proof.
  induction log1 as [|op log1 IH]; simpl; [reflexivity|].
  destruct op as [| |[|n|n i]]; simpl; rewrite ?IH; reflexivity.
Qed.

Lemma by_name_direction (hw : host) (adm : AudioDeviceManager) (fuel : nat)
    (b : bool) (n : string) :
  (if b then input_by_name else output_by_name) hw adm fuel n true
  = device_by_name hw adm fuel n (Some b) true.
Proof. destruct b; reflexivity. Qed.

(** One route: how it ends, which [SetSourceSettings] it adds, and what it
    leaves of the reply to [GetSpecialSources] and of the output. *)
Lemma set_route_run (hw : host) (adm : AudioDeviceManager) (fuel : nat)
    (b : bool) (conf : route) (w : world) :
  let sp := special_sources (remote w) in
  let r := set_route hw fuel adm b conf w in
  fst r = plan_outcome (route_plan hw adm fuel sp) [(b, conf)]
  /\ set_calls (wire (snd r))
     = (set_calls (wire w)
          ++ plan_calls (route_plan hw adm fuel sp) [(b, conf)])%list
  /\ special_sources (remote (snd r)) = sp
  /\ exists before after,
       stdout (snd r)
       = (stdout w ++ before
            ++ route_lines hw adm fuel sp (b, conf) ++ after)%list.
Proof.
  destruct w as [c log [sp ss] out].
  unfold set_route, get_obs_audio_device_name, connect, bind, get_connected,
    socket, set_connected, print, socket_call, route_plan, route_lines,
    lift, ret, raise.
  rewrite by_name_direction. simpl.
  destruct c; simpl;
    (destruct (dict_get sp (obs_device conf)) as [label|]; simpl;
     [ destruct (device_by_name hw adm fuel (device_name conf) (Some b) true)
         as [[[|s|d]|e|] lines]; simpl
     | ]);
    rewrite ?set_calls_app; simpl; rewrite ?app_nil_r;
    (split; [reflexivity | split; [reflexivity | split; [reflexivity|]]]).
  all: rewrite <- ?app_assoc.
  all: first
    [ exists [], []; rewrite ?app_nil_r; reflexivity
    | exists []; eexists; simpl; reflexivity
    | exists ["OBS WebSocket connection established."], [];
      rewrite ?app_nil_r; reflexivity
    | exists ["OBS WebSocket connection established."]; eexists; simpl;
      reflexivity ].
Qed.

Section PlanFacts.

Variable plan : bool * route -> res (string * string).

Lemma plan_outcome_app (rs1 rs2 : list (bool * route)) :
  plan_outcome plan (rs1 ++ rs2)
  = match plan_outcome plan rs1 with
    | Ret _ => plan_outcome plan rs2
    | other => other
    end.
Proof.
  induction rs1 as [|r rs1 IH]; simpl; [reflexivity|].
  destruct (plan r); [exact IH | reflexivity | reflexivity].
Qed.

Lemma plan_calls_app (rs1 rs2 : list (bool * route)) :
  plan_calls plan (rs1 ++ rs2)
  = (plan_calls plan rs1
       ++ match plan_outcome plan rs1 with
          | Ret _ => plan_calls plan rs2
          | _ => []
          end)%list.
Proof.
  induction rs1 as [|r rs1 IH]; simpl; [reflexivity|].
  destruct (plan r); [rewrite IH | |]; reflexivity.
Qed.


(** A plan whose routes succeed up to one that raises. *)
Lemma plan_stops (pre post : list (bool * route)) (r : bool * route)
    (calls : list (string * string)) (e : exn) :
  Forall2 (fun r call => plan r = Ret call) pre calls ->
  plan r = Raise e ->
  plan_outcome plan (pre ++ r :: post) = Raise e
  /\ plan_calls plan (pre ++ r :: post) = calls.
Proof.
  intros Hpre Hr. induction Hpre as [|p call pre calls Hp _ IH]; simpl.
  - rewrite Hr. split; reflexivity.
  - rewrite Hp. destruct IH as [IH1 IH2]. rewrite IH1, IH2.
    split; reflexivity.
Qed.

End PlanFacts.

Lemma plan_lines_app (hw : host) (adm : AudioDeviceManager) (fuel : nat)
    (sp : dict) (rs1 rs2 : list (bool * route)) :
  plan_lines hw adm fuel sp (rs1 ++ rs2)
  = (plan_lines hw adm fuel sp rs1
       ++ match plan_outcome (route_plan hw adm fuel sp) rs1 with
          | Ret _ => plan_lines hw adm fuel sp rs2
          | _ => []
          end)%list.
Proof.
  induction rs1 as [|r rs1 IH]; simpl; [reflexivity|].
  destruct (route_plan hw adm fuel sp r);
    [rewrite IH, app_assoc | rewrite !app_nil_r | rewrite !app_nil_r];
    reflexivity.
Qed.

Lemma plan_lines_stops (hw : host) (adm : AudioDeviceManager) (fuel : nat)
    (sp : dict) (pre post : list (bool * route)) (r : bool * route)
    (calls : list (string * string)) (line : string) :
  Forall2 (fun r call => route_plan hw adm fuel sp r = Ret call) pre calls ->
  In line (route_lines hw adm fuel sp r) ->
  In line (plan_lines hw adm fuel sp (pre ++ r :: post)).
Proof.
  intros Hpre Hline. induction Hpre as [|p call pre calls Hp _ IH]; simpl.
  - apply in_or_app. left. exact Hline.
  - rewrite Hp. apply in_or_app. right. exact IH.
Qed.

Lemma for_each_follows_plan (hw : host) (adm : AudioDeviceManager)
    (fuel : nat) (b : bool) (l : list route) :
  forall w,
    follows_plan hw adm fuel (map (pair b) l) w
      (for_each l (set_route hw fuel adm b) w).
Proof.
  induction l as [|conf l IH]; intros w.
  - unfold follows_plan. simpl. rewrite app_nil_r.
    repeat split. intros line [H|[]]. exact H.
  - unfold follows_plan. simpl. unfold bind.
    destruct (set_route_run hw adm fuel b conf w)
      as [H1 [H2 [H3 [before [after H4]]]]].
    simpl in H1, H2.
    destruct (set_route hw fuel adm b conf w) as [o w'] eqn:E.
    simpl in H1, H2, H3, H4.
    destruct (route_plan hw adm fuel (special_sources (remote w)) (b, conf))
      as [call|e|] eqn:P; subst o.
    + destruct (IH w') as [I1 [I2 [I3 I4]]]. rewrite H3 in I1, I2, I3, I4.
      split; [exact I1|]. split; [|split; [exact I3|]].
      * rewrite I2, H2, <- app_assoc. reflexivity.
      * intros line Hline. apply I4. rewrite H4.
        destruct Hline as [Hline|Hline].
        -- left. apply in_or_app. left. exact Hline.
        -- apply in_app_or in Hline. destruct Hline as [Hline|Hline].
           ++ left. apply in_or_app. right. apply in_or_app. right.
              apply in_or_app. left. exact Hline.
           ++ right. exact Hline.
    + split; [reflexivity|]. split; [exact H2|]. split; [exact H3|].
      intros line Hline. simpl snd. rewrite H4. rewrite app_nil_r in Hline.
      destruct Hline as [Hline|Hline]; apply in_or_app;
        [left; exact Hline | right].
      apply in_or_app. right. apply in_or_app. left. exact Hline.
    + split; [reflexivity|]. split; [exact H2|]. split; [exact H3|].
      intros line Hline. simpl snd. rewrite H4. rewrite app_nil_r in Hline.
      destruct Hline as [Hline|Hline]; apply in_or_app;
        [left; exact Hline | right].
      apply in_or_app. right. apply in_or_app. left. exact Hline.
Qed.

Lemma follows_plan_seq (hw : host) (adm : AudioDeviceManager) (fuel : nat)
    (rs1 rs2 : list (bool * route)) (m1 m2 : M unit) (w : world) :
  follows_plan hw adm fuel rs1 w (m1 w) ->
  (forall w1, follows_plan hw adm fuel rs2 w1 (m2 w1)) ->
  follows_plan hw adm fuel (rs1 ++ rs2) w ((m1 ;; m2) w).
Proof.
  intros [H1 [H2 [H3 H4]]] Hm2. unfold follows_plan, bind.
  rewrite plan_outcome_app, plan_calls_app, plan_lines_app.
  destruct (m1 w) as [o w1]. simpl in H1, H2, H3, H4.
  rewrite <- H1.
  destruct o as [[]|e|].
  - destruct (Hm2 w1) as [I1 [I2 [I3 I4]]]. rewrite H3 in I1, I2, I3, I4.
    split; [exact I1|]. split; [|split; [exact I3|]].
    + rewrite I2, H2, <- app_assoc. reflexivity.
    + intros line [Hline|Hline]; apply I4.
      * left. apply H4. left. exact Hline.
      * apply in_app_or in Hline. destruct Hline as [Hline|Hline].
        -- left. apply H4. right. exact Hline.
        -- right. exact Hline.
  - simpl. rewrite !app_nil_r. repeat split; assumption.
  - simpl. rewrite !app_nil_r. repeat split; assumption.
Qed.

Lemma guarded_loop_follows_plan (hw : host) (adm : AudioDeviceManager)
    (fuel : nat) (b : bool) (l : list route) (title : string) (w : world) :
  follows_plan hw adm fuel (map (pair b) l) w
    ((if Nat.eqb (length l) 0 then ret tt
      else print title ;; for_each l (set_route hw fuel adm b)) w).
Proof.
  destruct l as [|conf l].
  - apply (for_each_follows_plan hw adm fuel b [] w).
  - change (Nat.eqb (length (conf :: l)) 0) with false. cbv iota.
    unfold bind at 1. unfold print at 1.
    match goal with
    | |- follows_plan _ _ _ _ _ (for_each _ _ ?w0) =>
      destruct (for_each_follows_plan hw adm fuel b (conf :: l) w0)
        as [H1 [H2 [H3 H4]]]
    end.
    simpl remote in *. simpl wire in *. simpl stdout in *.
    unfold follows_plan. split; [exact H1|]. split; [exact H2|].
    split; [exact H3|].
    intros line [Hline|Hline]; apply H4.
    + left. apply in_or_app. left. exact Hline.
    + right. exact Hline.
Qed.

(** The whole pass follows the plan of its routes, inputs first. *)
Lemma pass_follows_plan (hw : host) (adm : AudioDeviceManager) (fuel : nat)
    (c : config) (w : world) :
  follows_plan hw adm fuel (routes c) w
    (set_audio_device_settings hw fuel c adm w).
Proof.
  unfold set_audio_device_settings, routes.
  apply follows_plan_seq.
  - apply guarded_loop_follows_plan.
  - intros w1. apply guarded_loop_follows_plan.
Qed.


Example pass_on_plain_host :
  let r := set_audio_device_settings host_plain 1
             (mkconfig [mkroute "mic-1" "Headset Microphone"]
                       [mkroute "desktop-1" "Speakers"] None None)
             adm_plain (OBSWebsocket_init obs_plain) in
  fst r = Ret tt
  /\ set_calls (wire (snd r)) = [("Mic/Aux", "A1"); ("Desktop Audio", "S1")].
Proof. split; reflexivity. Qed.

(** A route whose source and device resolve: what it sends. *)
Lemma set_route_resolved (hw : host) (adm : AudioDeviceManager) (fuel : nat)
    (b : bool) (conf : route) (w : world) (label : string) (d : device)
    (lines : list string) :
  dict_get (special_sources (remote w)) (obs_device conf) = Some label ->
  device_by_name hw adm fuel (device_name conf) (Some b) true
  = (Ret (VDev d), lines) ->
  fst (set_route hw fuel adm b conf w) = Ret tt
  /\ wire (snd (set_route hw fuel adm b conf w))
     = (wire w ++ (if connected w then [] else [ws_connect])
          ++ [ws_call GetSpecialSources;
              ws_call (SetSourceSettings label (id d))])%list.
Proof.
  intros Hlabel Hdev.
  destruct w as [c log [sp ss] out]. simpl in Hlabel.
  unfold set_route, get_obs_audio_device_name, set_obs_source, call,
    connect, bind, get_connected, socket, set_connected, print,
    socket_call, lift, ret, raise.
  rewrite by_name_direction, Hdev. simpl.
  destruct c; simpl; rewrite Hlabel; simpl; rewrite <- ?app_assoc;
    split; reflexivity.
Qed.

(** A pass over a single input route whose source and device resolve. *)
Lemma single_input_route_run (hw : host) (adm : AudioDeviceManager)
    (fuel : nat) (source n : string) (di do : option string) (w : world)
    (label : string) (d : device) (lines : list string) :
  dict_get (special_sources (remote w)) source = Some label ->
  device_by_name hw adm fuel n (Some true) true = (Ret (VDev d), lines) ->
  let r := set_audio_device_settings hw fuel
             (mkconfig [mkroute source n] [] di do) adm w in
  fst r = Ret tt
  /\ wire (snd r)
     = (wire w ++ (if connected w then [] else [ws_connect])
          ++ [ws_call GetSpecialSources;
              ws_call (SetSourceSettings label (id d))])%list.
Proof.
  intros Hlabel Hdev.
  unfold set_audio_device_settings.
  cbn [inputs outputs length Nat.eqb for_each].
  unfold bind, print, ret. cbv beta.
  match goal with
  | |- context [set_route hw fuel adm true ?conf ?w0] =>
    destruct (set_route_resolved hw adm fuel true conf w0 label d lines
                Hlabel Hdev) as [H1 H2];
    destruct (set_route hw fuel adm true conf w0) as [o w1]
  end.
  simpl in H1, H2. subst o. split; [reflexivity | exact H2].
Qed.

(** C9.  One input route from "mic-1" to "Headset Microphone", no output
    route, and a host with exactly one microphone of that name, whose id
    is "A1": the pass returns, and after connecting if need be it sends
    [GetSpecialSources] and then [SetSourceSettings] for the label that
    reply gives for "mic-1", with [device_id] "A1", and nothing else. *)
Theorem headset_route_sets_device_A1 (hw : host) (adm : AudioDeviceManager)
    (fuel : nat) (di do : option string) (w : world) (label : string)
    (d : device) :
  matching attr_name "Headset Microphone" (all_microphones hw) = [d] ->
  id d = "A1" ->
  dict_get (special_sources (remote w)) "mic-1" = Some label ->
  let r := set_audio_device_settings hw (S fuel)
             (mkconfig [mkroute "mic-1" "Headset Microphone"] [] di do)
             adm w in
  fst r = Ret tt
  /\ wire (snd r)
     = (wire w ++ (if connected w then [] else [ws_connect])
          ++ [ws_call GetSpecialSources;
              ws_call (SetSourceSettings label "A1")])%list
  /\ set_calls (wire (snd r)) = (set_calls (wire w) ++ [(label, "A1")])%list.
Proof.
  intros Hmic Hid Hlabel r.
  assert (Hdev : device_by_name hw adm (S fuel) "Headset Microphone"
                   (Some true) true = (Ret (VDev d), [])).
  { apply (first_named_device hw adm fuel "Headset Microphone"
             true true d []); [discriminate | exact Hmic]. }
  destruct (single_input_route_run hw adm (S fuel) "mic-1"
              "Headset Microphone" di do w label d [] Hlabel Hdev)
    as [Hret Hwire].
  fold r in Hret, Hwire. rewrite Hid in Hwire.
  split; [exact Hret|]. split; [exact Hwire|].
  rewrite Hwire, !set_calls_app.
  destruct (connected w); reflexivity.
Qed.

Lemma headset_route_sets_device_A1_witness :
  wire (snd (set_audio_device_settings host_plain 1
               (mkconfig [mkroute "mic-1" "Headset Microphone"] []
                  None None)
               adm_plain (OBSWebsocket_init obs_plain)))
  = [ws_connect; ws_call GetSpecialSources;
     ws_call (SetSourceSettings "Mic/Aux" "A1")].
Proof.
  apply (headset_route_sets_device_A1 host_plain adm_plain 0 None None
           (OBSWebsocket_init obs_plain) "Mic/Aux" headset).
  - reflexivity.
  - reflexivity.
  - reflexivity.
Defined.

(** C1, against the claim as stated.  Three routes, of which only the first
    names a device the host does not have: the pass raises at that route
    and sends no [SetSourceSettings] at all, although the other two routes
    resolve. *)
Lemma one_unresolvable_route_stops_the_pass :
  matching attr_name "Unplugged Microphone" (all_microphones host_plain) = []
  /\ route_plan host_plain adm_plain 1 (special_sources obs_plain)
       (true, mkroute "mic-1" "Headset Microphone") = Ret ("Mic/Aux", "A1")
  /\ route_plan host_plain adm_plain 1 (special_sources obs_plain)
       (false, mkroute "desktop-1" "Speakers") = Ret ("Desktop Audio", "S1")
  /\ fst (set_audio_device_settings host_plain 1 config_one_bad adm_plain
            (OBSWebsocket_init obs_plain)) = Raise ValueError
  /\ set_calls
       (wire (snd (set_audio_device_settings host_plain 1 config_one_bad
                     adm_plain (OBSWebsocket_init obs_plain)))) = [].
Proof. repeat split. Qed.

(** C1, amended.  When the routes before an unresolvable one resolve, the
    pass stops at that route with an exception: the [SetSourceSettings]
    calls it has sent are those of the routes before it (inputs first,
    then outputs, in configuration order), and none is sent for it or for
    a later route.  When the route's role key is in the reply to
    [GetSpecialSources], the exception is [ValueError] and the diagnostic
    for the route has been printed; when it is not, the exception is
    [KeyError]. *)
Theorem pass_stops_at_unresolvable_route (hw : host)
    (adm : AudioDeviceManager) (fuel : nat) (c : config) (w : world)
    (pre post : list (bool * route)) (b : bool) (bad : route)
    (calls : list (string * string)) :
  routes c = (pre ++ (b, bad) :: post)%list ->
  Forall2
    (fun r call =>
       route_plan hw adm (S fuel) (special_sources (remote w)) r = Ret call)
    pre calls ->
  device_name bad <> "default" ->
  matching attr_name (device_name bad) (devices_of hw b) = [] ->
  let r := set_audio_device_settings hw (S fuel) c adm w in
  (exists e, fst r = Raise e)
  /\ set_calls (wire (snd r)) = (set_calls (wire w) ++ calls)%list
  /\ (dict_get (special_sources (remote w)) (obs_device bad) <> None ->
      fst r = Raise ValueError
      /\ In ("Windows does not have a device called " ++ device_name bad)
           (stdout (snd r)))
  /\ (dict_get (special_sources (remote w)) (obs_device bad) = None ->
      fst r = Raise KeyError).
Proof.
  intros Hroutes Hpre Hname Hnone r.
  pose proof (device_by_name_unresolved hw adm fuel (device_name bad) b true
                Hname Hnone) as Hdev.
  destruct (pass_follows_plan hw adm (S fuel) c w) as [H1 [H2 [_ H4]]].
  fold r in H1, H2, H4. rewrite Hroutes in H1, H2, H4.
  destruct (dict_get (special_sources (remote w)) (obs_device bad))
    as [label|] eqn:Hlabel.
  - assert (Hplan : route_plan hw adm (S fuel) (special_sources (remote w))
                      (b, bad) = Raise ValueError).
    { unfold route_plan. simpl. rewrite Hlabel, Hdev. reflexivity. }
    destruct (plan_stops _ pre post (b, bad) calls ValueError Hpre Hplan)
      as [Hout Hcalls].
    rewrite Hout in H1. rewrite Hcalls in H2.
    split; [exists ValueError; exact H1|]. split; [exact H2|].
    split; [|discriminate].
    intros _. split; [exact H1|].
    apply H4. right.
    apply (plan_lines_stops hw adm (S fuel) _ pre post (b, bad) calls);
      [exact Hpre|].
    unfold route_lines. simpl. rewrite Hlabel, Hdev. left. reflexivity.
  - assert (Hplan : route_plan hw adm (S fuel) (special_sources (remote w))
                      (b, bad) = Raise KeyError).
    { unfold route_plan. simpl. rewrite Hlabel. reflexivity. }
    destruct (plan_stops _ pre post (b, bad) calls KeyError Hpre Hplan)
      as [Hout Hcalls].
    rewrite Hout in H1. rewrite Hcalls in H2.
    split; [exists KeyError; exact H1|]. split; [exact H2|].
    split; [congruence|]. intros _. exact H1.
Qed.

Lemma pass_stops_at_unresolvable_route_witness :
  set_calls
    (wire (snd (set_audio_device_settings host_plain 1
                  (mkconfig [mkroute "mic-1" "Headset Microphone"]
                            [mkroute "desktop-1" "Unplugged Speakers";
                             mkroute "desktop-1" "Speakers"] None None)
                  adm_plain (OBSWebsocket_init obs_plain))))
  = [("Mic/Aux", "A1")].
Proof.
  refine (proj1 (proj2
    (pass_stops_at_unresolvable_route host_plain adm_plain 0
       (mkconfig [mkroute "mic-1" "Headset Microphone"]
                 [mkroute "desktop-1" "Unplugged Speakers";
                  mkroute "desktop-1" "Speakers"] None None)
       (OBSWebsocket_init obs_plain)
       [(true, mkroute "mic-1" "Headset Microphone")]
       [(false, mkroute "desktop-1" "Speakers")]
       false (mkroute "desktop-1" "Unplugged Speakers")
       [("Mic/Aux", "A1")] _ _ _ _))).
  - reflexivity.
  - constructor; [reflexivity | constructor].
  - discriminate.
  - reflexivity.
Defined.

(** C5, against the claim as stated.  No microphone is named ['default'],
    yet a lookup of that name among the microphones raises nothing and
    prints nothing: it returns the device the defaults name. *)
Lemma name_default_without_match_returns :
  matching attr_name "default" (all_microphones host_plain) = []
  /\ device_by_name host_plain adm_plain 2 "default" (Some true) false
     = (Ret (VDev headset), [])
  /\ device_by_name host_plain adm_plain 2 "default" (Some true) true
     = (Ret (VDev headset), []).
Proof. repeat split. Qed.

(** C5, amended.  A name other than ['default'] that no device of the
    requested direction carries makes [device_by_name] raise [ValueError]
    after printing a line that names the requested device, followed by the
    device listing, which shows every device of that direction.  A route of
    the pass with such a name does not return and sends no
    [SetSourceSettings]. *)
Theorem unresolved_name_raises_with_listing (hw : host)
    (self : AudioDeviceManager) (fuel : nat) (n : string)
    (b replace_default : bool) :
  n <> "default" ->
  matching attr_name n (devices_of hw b) = [] ->
  device_by_name hw self (S fuel) n (Some b) replace_default
  = (Raise ValueError,
     ("Windows does not have a device called " ++ n)
       :: print_device_listing hw false)
  /\ (forall d, In d (devices_of hw b) ->
        In (name d) (print_device_listing hw false))
  /\ (forall source w,
        let r := set_route hw (S fuel) self b (mkroute source n) w in
        (exists e, fst r = Raise e)
        /\ set_calls (wire (snd r)) = set_calls (wire w)).
Proof.
  intros Hn Hnone. split; [|split].
  - apply device_by_name_unresolved; assumption.
  - intros d. apply listing_covers_direction.
  - intros source w r.
    destruct (set_route_run hw self (S fuel) b (mkroute source n) w)
      as [H1 [H2 _]].
    fold r in H1, H2. simpl in H1, H2.
    unfold route_plan in H1, H2. simpl in H1, H2.
    rewrite (device_by_name_unresolved hw self fuel n b true Hn Hnone)
      in H1, H2.
    destruct (dict_get (special_sources (remote w)) source);
      simpl in H1, H2; rewrite app_nil_r in H2;
      (split; [eexists; exact H1 | exact H2]).
Qed.

Lemma unresolved_name_raises_with_listing_witness :
  device_by_name host_plain adm_plain 1 "Unplugged Microphone" (Some true)
    true
  = (Raise ValueError,
     ["Windows does not have a device called Unplugged Microphone";
      nl ++ "Available audio output devices:"; "Speakers";
      nl ++ "Available audio input devices:"; "Headset Microphone"]).
Proof.
  apply (unresolved_name_raises_with_listing host_plain adm_plain 0
           "Unplugged Microphone" true true).
  - discriminate.
  - reflexivity.
Defined.

(** * Further properties of the code *)

(** ** [AudioDeviceManager] *)

Lemma matching_app (prop : attr) (v : string) (l1 l2 : list device) :
  matching prop v (l1 ++ l2)
  = (matching prop v l1 ++ matching prop v l2)%list.
Proof. unfold matching. apply filter_app. Qed.

(** [device_by_id] never raises and never returns the string ['default']:
    it returns [None], or the first device, speakers before microphones,
    whose id is the one asked for. *)
Theorem device_by_id_returns_None_or_first (hw : host)
    (self : AudioDeviceManager) (fuel : nat) (i : string) :
  (device_by_id hw self (S fuel) i = Ret VNone
   /\ (i = "default" \/ matching attr_id i (all_devices hw) = []))
  \/ (exists d rest,
        i <> "default"
        /\ matching attr_id i (all_devices hw) = d :: rest
        /\ device_by_id hw self (S fuel) i = Ret (VDev d)).
Proof.
  unfold device_by_id. rewrite select_device_any_direction.
  destruct (String.eqb_spec i "default") as [E|E].
  - left. split; [reflexivity | left; exact E].
  - unfold first_match. fold (all_devices hw).
    destruct (matching attr_id i (all_devices hw)) as [|d rest] eqn:Hm.
    + left. split; [reflexivity | right; reflexivity].
    + right. exists d, rest. repeat split. exact E.
Qed.

(** An id carried by a speaker resolves to the first such speaker, whatever
    the microphones are: the lookup by id searches the speakers first. *)
Theorem device_by_id_prefers_speakers (hw : host)
    (self : AudioDeviceManager) (fuel : nat) (i : string) (d : device)
    (rest : list device) :
  i <> "default" ->
  matching attr_id i (all_speakers hw) = d :: rest ->
  device_by_id hw self (S fuel) i = Ret (VDev d).
Proof.
  intros Hi Hm. unfold device_by_id.
  rewrite select_device_any_direction.
  apply String.eqb_neq in Hi. rewrite Hi.
  unfold first_match. rewrite matching_app, Hm. reflexivity.
Qed.

Lemma device_by_id_prefers_speakers_witness :
  device_by_id host_shared_id adm_plain 1 "S1" = Ret (VDev usb_speakers).
Proof.
  apply (device_by_id_prefers_speakers host_shared_id adm_plain 0 "S1"
           usb_speakers []).
  - discriminate.
  - reflexivity.
Defined.

(** When no microphone carries the name of the default input, a lookup of
    ['default'] with [replace_default] set raises [IndexError] and prints
    nothing, since [get_default] is called outside the [try]; without
    [replace_default] the same lookup raises [ValueError] after a
    diagnostic that names ['default'], not the missing device. *)
Theorem missing_default_input_raises (hw : host)
    (self : AudioDeviceManager) (fuel : nat) :
  default_input self <> "default" ->
  matching attr_name (default_input self) (all_microphones hw) = [] ->
  device_by_name hw self (S (S fuel)) "default" (Some true) true
  = (Raise IndexError, [])
  /\ device_by_name hw self (S (S fuel)) "default" (Some true) false
     = (Raise ValueError,
        "Windows does not have a device called default"
          :: print_device_listing hw false).
Proof.
  intros Hin Hnone.
  assert (Hsel : select_device hw self (S (S fuel)) attr_name "default"
                   (Some true) = Raise IndexError).
  { change (select_device hw self (S fuel) attr_name (default_input self)
              (Some true) = Raise IndexError).
    rewrite select_device_named by exact Hin.
    unfold first_match, devices_of. rewrite Hnone. reflexivity. }
  unfold device_by_name, get_default.
  cbn [andb String.eqb Ascii.eqb Bool.eqb].
  rewrite Hsel. split; reflexivity.
Qed.

Lemma missing_default_input_raises_witness :
  device_by_name host_unplugged adm_plain 2 "default" (Some true) true
  = (Raise IndexError, []).
Proof.
  apply (missing_default_input_raises host_unplugged adm_plain 0).
  - discriminate.
  - reflexivity.
Defined.

(** A configuration without [defaultInput] falls back to the name of the
    OS default microphone: when that microphone is enumerated, the default
    input resolves to an enumerated microphone of the same name. *)
Theorem os_default_microphone_resolves (hw : host) (c : config)
    (fuel : nat) :
  defaultInput c = None ->
  In (default_microphone hw) (all_microphones hw) ->
  name (default_microphone hw) <> "default" ->
  exists d,
    get_default hw (ADM_init hw c) (S (S fuel)) (Some true) = Ret (VDev d)
    /\ name d = name (default_microphone hw)
    /\ In d (all_microphones hw).
Proof.
  intros Hnone Hin Hname.
  assert (Hdef : default_input (ADM_init hw c) = name (default_microphone hw)).
  { unfold ADM_init. simpl. rewrite Hnone. reflexivity. }
  unfold get_default.
  change (exists d,
            select_device hw (ADM_init hw c) (S fuel) attr_name
              (default_input (ADM_init hw c)) (Some true) = Ret (VDev d)
            /\ name d = name (default_microphone hw)
            /\ In d (all_microphones hw)).
  rewrite Hdef, select_device_named by exact Hname.
  unfold first_match, devices_of.
  destruct (matching attr_name (name (default_microphone hw))
              (all_microphones hw)) as [|d rest] eqn:Hm.
  - exfalso.
    assert (Hd : In (default_microphone hw)
                   (matching attr_name (name (default_microphone hw))
                      (all_microphones hw))).
    { apply matching_In. split; [exact Hin | reflexivity]. }
    rewrite Hm in Hd. destruct Hd.
  - exists d. split; [reflexivity|].
    assert (Hd : In d (matching attr_name (name (default_microphone hw))
                         (all_microphones hw))).
    { rewrite Hm. left. reflexivity. }
    apply matching_In in Hd. destruct Hd as [Hd1 Hd2].
    split; [exact Hd2 | exact Hd1].
Qed.

Lemma os_default_microphone_resolves_witness :
  exists d,
    get_default host_plain
      (ADM_init host_plain (mkconfig [] [] None None)) 2 (Some true)
    = Ret (VDev d)
    /\ name d = "Headset Microphone"
    /\ In d (all_microphones host_plain).
Proof.
  apply (os_default_microphone_resolves host_plain
           (mkconfig [] [] None None) 0).
  - reflexivity.
  - left. reflexivity.
  - discriminate.
Defined.

Lemma select_device_input_depth (hw : host) (self : AudioDeviceManager)
    (prop : attr) (v : string) (fuel : nat) (r : res value) :
  select_device hw self fuel prop v (Some true) = r ->
  r <> OutOfFuel ->
  forall fuel', 2 <= fuel' ->
    select_device hw self fuel' prop v (Some true) = r.
Proof.
  intros Hr Hfin fuel' Hfuel'.
  destruct fuel' as [|[|f']]; [lia | lia |].
  destruct fuel as [|fuel]; [simpl in Hr; congruence|].
  simpl in Hr. simpl.
  destruct (v =? "default") eqn:Ev; [|exact Hr].
  destruct (String.eqb_spec (default_input self) "default") as [Ed|Ed].
  - exfalso. apply Hfin. rewrite <- Hr, Ed.
    apply select_device_default_input_loops. exact Ed.
  - destruct fuel as [|fuel]; [simpl in Hr; congruence|].
    simpl in Hr. apply String.eqb_neq in Ed. rewrite Ed in Hr. exact Hr.
Qed.

(** A lookup that finishes makes at most two nested recursive calls: its
    outcome is the one every recursion budget of three or more gives. *)
Theorem select_device_finishes_within_depth_three (hw : host)
    (self : AudioDeviceManager) (prop : attr) (v : string)
    (is_input : option bool) (fuel : nat) (r : res value) :
  select_device hw self fuel prop v is_input = r ->
  r <> OutOfFuel ->
  forall fuel', 3 <= fuel' ->
    select_device hw self fuel' prop v is_input = r.
Proof.
  intros Hr Hfin fuel' Hfuel'.
  destruct is_input as [[|]|].
  - apply (select_device_input_depth hw self prop v fuel r Hr Hfin). lia.
  - destruct fuel' as [|f']; [lia|].
    destruct fuel as [|fuel]; [simpl in Hr; congruence|].
    simpl in Hr. simpl.
    destruct (v =? "default") eqn:Ev; [|exact Hr].
    apply (select_device_input_depth hw self attr_name
             (default_output self) fuel r Hr Hfin). lia.
  - destruct fuel' as [|f']; [lia|].
    destruct fuel as [|fuel]; [simpl in Hr; congruence|].
    exact Hr.
Qed.

Lemma select_device_finishes_within_depth_three_witness :
  select_device host_plain adm_output_default 7 attr_name "default"
    (Some false) = Ret (VDev headset).
Proof.
  apply (select_device_finishes_within_depth_three host_plain
           adm_output_default attr_name "default" (Some false) 3
           (Ret (VDev headset))).
  - reflexivity.
  - discriminate.
  - lia.
Defined.


(** ** The pass *)

(** A route whose role key is missing from the reply to
    [GetSpecialSources] raises [KeyError] right after that request: the
    device is not looked up (no diagnostic is printed, even for a name the
    host does not have) and nothing is set. *)
Theorem unknown_role_raises_KeyError (hw : host) (adm : AudioDeviceManager)
    (fuel : nat) (b : bool) (conf : route) (w : world) :
  dict_get (special_sources (remote w)) (obs_device conf) = None ->
  set_route hw fuel adm b conf w
  = (Raise KeyError,
     {| connected := true;
        wire := (wire w ++ connect_ops w ++ [ws_call GetSpecialSources])%list;
        remote := remote w;
        stdout := (stdout w ++ connect_lines w)%list |}).
Proof.
  intros Hrole. destruct w as [c log [sp ss] out]. simpl in Hrole.
  unfold set_route, get_obs_audio_device_name, connect, bind, get_connected,
    socket, set_connected, print, socket_call, ret, raise, connect_ops,
    connect_lines.
  destruct c; simpl; rewrite Hrole; rewrite ?app_nil_r, <- ?app_assoc;
    reflexivity.
Qed.

Lemma unknown_role_raises_KeyError_witness :
  fst (set_route host_plain 1 adm_plain true
         (mkroute "mic-9" "Unplugged Microphone")
         (OBSWebsocket_init obs_plain)) = Raise KeyError.
Proof.
  rewrite (unknown_role_raises_KeyError host_plain adm_plain 1 true
             (mkroute "mic-9" "Unplugged Microphone")
             (OBSWebsocket_init obs_plain)).
  - reflexivity.
  - reflexivity.
Defined.

Lemma plan_completes (plan : bool * route -> res (string * string))
    (rs : list (bool * route)) (calls : list (string * string)) :
  Forall2 (fun r call => plan r = Ret call) rs calls ->
  plan_outcome plan rs = Ret tt /\ plan_calls plan rs = calls.
Proof.
  intros H. induction H as [|r call rs calls Hr _ [IH1 IH2]]; simpl.
  - split; reflexivity.
  - rewrite Hr, IH1, IH2. split; reflexivity.
Qed.

(** When every route of the configuration resolves, the pass returns and
    has sent one [SetSourceSettings] per route: all inputs, then all
    outputs, each group in configuration order. *)
Theorem pass_applies_every_route_when_all_resolve (hw : host)
    (adm : AudioDeviceManager) (fuel : nat) (c : config) (w : world)
    (calls : list (string * string)) :
  Forall2
    (fun r call =>
       route_plan hw adm fuel (special_sources (remote w)) r = Ret call)
    (map (pair true) (inputs c) ++ map (pair false) (outputs c))%list
    calls ->
  fst (set_audio_device_settings hw fuel c adm w) = Ret tt
  /\ set_calls (wire (snd (set_audio_device_settings hw fuel c adm w)))
     = (set_calls (wire w) ++ calls)%list
  /\ length calls = length (inputs c) + length (outputs c).
Proof.
  intros Hall.
  destruct (pass_follows_plan hw adm fuel c w) as [H1 [H2 _]].
  destruct (plan_completes _ _ _ Hall) as [Hout Hcalls].
  unfold routes in H1, H2. rewrite Hout in H1. rewrite Hcalls in H2.
  split; [exact H1|]. split; [exact H2|].
  apply Forall2_length in Hall.
  rewrite <- Hall, length_app, !length_map. reflexivity.
Qed.

Lemma pass_applies_every_route_when_all_resolve_witness :
  set_calls
    (wire (snd (set_audio_device_settings host_plain 2
                  (mkconfig [mkroute "mic-1" "Headset Microphone";
                             mkroute "mic-1" "default"]
                            [mkroute "desktop-1" "Speakers"] None None)
                  adm_plain (OBSWebsocket_init obs_plain))))
  = [("Mic/Aux", "A1"); ("Mic/Aux", "A1"); ("Desktop Audio", "S1")].
Proof.
  apply (pass_applies_every_route_when_all_resolve host_plain adm_plain 2
           (mkconfig [mkroute "mic-1" "Headset Microphone";
                      mkroute "mic-1" "default"]
                     [mkroute "desktop-1" "Speakers"] None None)
           (OBSWebsocket_init obs_plain)
           [("Mic/Aux", "A1"); ("Mic/Aux", "A1"); ("Desktop Audio", "S1")]).
  repeat constructor.
Defined.

(** An input route whose device name is ['default'] is applied with the
    first microphone that carries the configured default input name: the
    id sent to OBS is that microphone's, never the string ['default']. *)
Theorem default_input_route_sets_configured_default (hw : host)
    (adm : AudioDeviceManager) (fuel : nat) (source : string) (w : world)
    (label : string) (d : device) (rest : list device) :
  default_input adm <> "default" ->
  matching attr_name (default_input adm) (all_microphones hw) = d :: rest ->
  dict_get (special_sources (remote w)) source = Some label ->
  fst (set_route hw (S (S fuel)) adm true (mkroute source "default") w)
  = Ret tt
  /\ wire (snd (set_route hw (S (S fuel)) adm true
                  (mkroute source "default") w))
     = (wire w ++ (if connected w then [] else [ws_connect])
          ++ [ws_call GetSpecialSources;
              ws_call (SetSourceSettings label (id d))])%list.
Proof.
  intros Hin Hm Hlabel.
  apply (set_route_resolved hw adm (S (S fuel)) true
           (mkroute source "default") w label d []); [exact Hlabel|].
  unfold device_by_name, get_default.
  cbn [device_name andb String.eqb Ascii.eqb Bool.eqb].
  change (select_device hw adm (S (S fuel)) attr_name "default" (Some true))
    with (select_device hw adm (S fuel) attr_name (default_input adm)
            (Some true)).
  rewrite select_device_named by exact Hin.
  unfold first_match, devices_of. rewrite Hm. reflexivity.
Qed.

Lemma default_input_route_sets_configured_default_witness :
  wire (snd (set_route host_twins 2 adm_plain true
               (mkroute "mic-1" "default") (OBSWebsocket_init obs_plain)))
  = [ws_connect; ws_call GetSpecialSources;
     ws_call (SetSourceSettings "Mic/Aux" "A1")].
Proof.
  apply (default_input_route_sets_configured_default host_twins adm_plain 0
           "mic-1" (OBSWebsocket_init obs_plain) "Mic/Aux" headset
           [headset_twin]).
  - discriminate.
  - reflexivity.
  - reflexivity.
Defined.

(** ** The session and the report *)

(** Connecting twice is connecting once, disconnecting twice is
    disconnecting once, and a connect followed by a disconnect always ends
    disconnected. *)
Theorem connect_disconnect_compose (w : world) :
  (connect ;; connect) w = connect w
  /\ (disconnect ;; disconnect) w = disconnect w
  /\ connected (snd ((connect ;; disconnect) w)) = false
  /\ fst ((connect ;; disconnect) w) = Ret tt.
Proof.
  destruct w as [c log o out].
  unfold connect, disconnect, bind, get_connected, socket, set_connected,
    print, ret.
  destruct c; simpl; repeat split.
Qed.

Lemma connect_read_only (w0 : world) :
  keeps (unchanged_remote w0) (unchanged_remote w0) connect.
Proof.
  intros w [H1 H2].
  unfold unchanged_remote, connect, bind, get_connected, socket,
    set_connected, print.
  destruct (connected w); simpl; [split; assumption|].
  rewrite set_calls_app, app_nil_r. split; assumption.
Qed.

Lemma print_read_only (w0 : world) (s : string) :
  keeps (unchanged_remote w0) (unchanged_remote w0) (print s).
Proof. intros w H. exact H. Qed.

Lemma lift_read_only {A} (w0 : world) (p : res A * list string) :
  keeps (unchanged_remote w0) (unchanged_remote w0) (lift p).
Proof. intros w H. exact H. Qed.

Lemma get_special_sources_read_only (w0 : world) :
  keeps (unchanged_remote w0) (unchanged_remote w0)
    (socket_call GetSpecialSources).
Proof.
  intros w [H1 H2]. unfold unchanged_remote, socket_call. simpl.
  rewrite set_calls_app, app_nil_r. split; assumption.
Qed.

Lemma get_source_settings_read_only (w0 : world) (n : string) :
  keeps (unchanged_remote w0) (unchanged_remote w0)
    (socket_call (GetSourceSettings n)).
Proof.
  intros w [H1 H2]. unfold unchanged_remote, socket_call. simpl.
  rewrite set_calls_app, app_nil_r. split; assumption.
Qed.

Lemma settings_device_id_read_only (w0 : world) (settings : response) :
  keeps (unchanged_remote w0) (unchanged_remote w0)
    (settings_device_id settings).
Proof.
  destruct settings as [d|[i|]|]; first [apply keeps_ret | apply keeps_raise].
Qed.

Lemma get_audio_devices_read_only (w0 : world) :
  keeps (unchanged_remote w0) (unchanged_remote w0) get_audio_devices.
Proof.
  unfold get_audio_devices.
  then_same ltac:(apply connect_read_only). intros _.
  then_same ltac:(apply get_special_sources_read_only).
  intros [d| |]; try apply keeps_raise.
  destruct (dict_get d "status"); [apply keeps_ret | apply keeps_raise].
Qed.

Lemma get_audiodevice_settings_read_only (w0 : world) (n : string) :
  keeps (unchanged_remote w0) (unchanged_remote w0)
    (get_audiodevice_settings n).
Proof.
  unfold get_audiodevice_settings.
  then_same ltac:(apply connect_read_only). intros _.
  apply get_source_settings_read_only.
Qed.

(** The report changes nothing in OBS: neither [print_sources_settings]
    nor [get_audio_device_ids] sends a [SetSourceSettings], and the OBS
    instance is the same afterwards, however they end. *)
Theorem report_is_read_only (hw : host) (fuel : nat)
    (adm : AudioDeviceManager) (w : world) :
  unchanged_remote w (snd (print_sources_settings hw fuel adm w))
  /\ unchanged_remote w (snd (get_audio_device_ids w)).
Proof.
  assert (Hw : unchanged_remote w w) by (split; reflexivity).
  split.
  - apply (fun K : keeps (unchanged_remote w) (unchanged_remote w)
                     (print_sources_settings hw fuel adm) => K w Hw).
    unfold print_sources_settings.
    then_same ltac:(apply connect_read_only). intros _.
    then_same ltac:(apply get_audio_devices_read_only). intros device_names.
    apply keeps_for_each. intros obs_device_name.
    then_same ltac:(apply get_audiodevice_settings_read_only).
    intros settings.
    then_same ltac:(apply settings_device_id_read_only). intros device_id.
    then_same ltac:(apply lift_read_only). intros device.
    destruct (negb (truthy device)); [apply print_read_only|].
    destruct (value_eq_str device "default"); [apply print_read_only|].
    destruct device; first [apply print_read_only | apply keeps_raise].
  - apply (fun K : keeps (unchanged_remote w) (unchanged_remote w)
                     get_audio_device_ids => K w Hw).
    unfold get_audio_device_ids.
    then_same ltac:(apply get_audio_devices_read_only). intros device_names.
    apply keeps_for_each. intros device_name.
    then_same ltac:(apply get_audiodevice_settings_read_only).
    intros settings.
    then_same ltac:(apply settings_device_id_read_only). intros device_id.
    apply print_read_only.
Qed.

Lemma device_by_id_returns (hw : host) (self : AudioDeviceManager)
    (fuel : nat) (i : string) :
  device_by_id hw self (S fuel) i = Ret VNone
  \/ exists d, device_by_id hw self (S fuel) i = Ret (VDev d).
Proof.
  unfold device_by_id. rewrite select_device_any_direction.
  destruct (i =? "default"); [left; reflexivity|].
  unfold first_match.
  destruct (matching attr_id i (all_speakers hw ++ all_microphones hw))
    as [|d rest]; [left | right; exists d]; reflexivity.
Qed.

(** A loop whose body asks for the settings of one source and prints one
    line. *)
Lemma for_each_queries (body : string -> M unit) (labels : list string) :
  (forall l w,
     connected w = true ->
     dict_get (source_settings (remote w)) l <> None ->
     exists line,
       body l w
       = (Ret tt,
          mkworld true (wire w ++ [ws_call (GetSourceSettings l)])
            (remote w) (stdout w ++ [line]))) ->
  forall w,
    connected w = true ->
    Forall (fun l => dict_get (source_settings (remote w)) l <> None)
      labels ->
    exists lines,
      length lines = length labels
      /\ for_each labels body w
         = (Ret tt,
            mkworld true
              (wire w ++ map (fun l => ws_call (GetSourceSettings l)) labels)
              (remote w) (stdout w ++ lines)).
Proof.
  intros Hbody. induction labels as [|l labels IH]; intros w Hc Hall.
  - exists []. split; [reflexivity|].
    destruct w as [c log o out]. simpl in Hc. subst c.
    simpl. unfold ret. rewrite !app_nil_r. reflexivity.
  - inversion Hall as [|l' labels' Hl Hrest]; subst.
    destruct (Hbody l w Hc Hl) as [line Hline].
    simpl. unfold bind. rewrite Hline.
    destruct (IH (mkworld true (wire w ++ [ws_call (GetSourceSettings l)])
                    (remote w) (stdout w ++ [line])) eq_refl Hrest)
      as [lines [Hlen Hrun]].
    exists (line :: lines). split; [simpl; rewrite Hlen; reflexivity|].
    rewrite Hrun. simpl. rewrite <- !app_assoc. reflexivity.
Qed.

Lemma report_body_queries (hw : host) (fuel : nat)
    (adm : AudioDeviceManager) (l : string) (w : world) :
  connected w = true ->
  dict_get (source_settings (remote w)) l <> None ->
  exists line,
    (settings <- get_audiodevice_settings l ;;
     device_id <- settings_device_id settings ;;
     device <- lift (device_by_id hw adm (S fuel) device_id, []) ;;
     if negb (truthy device)
     then print (l ++ " is set to a device-id unknown to Windows: '"
                   ++ device_id ++ "'")
     else if value_eq_str device "default"
     then print (l ++ " is set to 'default'")
     else match device with
          | VDev d => print (l ++ " is set to '" ++ name d ++ "'")
          | _ => raise AttributeError
          end) w
    = (Ret tt,
       mkworld true (wire w ++ [ws_call (GetSourceSettings l)])
         (remote w) (stdout w ++ [line])).
Proof.
  intros Hc Hl. destruct w as [c log [sp ss] out].
  simpl in Hc, Hl. subst c.
  destruct (dict_get ss l) as [i|] eqn:Hi; [|congruence].
  unfold get_audiodevice_settings, settings_device_id, connect, bind,
    get_connected, socket_call, lift, print, ret, raise.
  simpl. rewrite Hi. simpl.
  destruct (device_by_id_returns hw adm fuel i) as [Hv|[d Hv]];
    rewrite Hv; simpl; rewrite ?app_nil_r; eexists; reflexivity.
Qed.

Lemma ids_body_queries (l : string) (w : world) :
  connected w = true ->
  dict_get (source_settings (remote w)) l <> None ->
  exists line,
    (settings <- get_audiodevice_settings l ;;
     device_id <- settings_device_id settings ;;
     print (l ++ " is set to '" ++ device_id ++ "'")) w
    = (Ret tt,
       mkworld true (wire w ++ [ws_call (GetSourceSettings l)])
         (remote w) (stdout w ++ [line])).
Proof.
  intros Hc Hl. destruct w as [c log [sp ss] out].
  simpl in Hc, Hl. subst c.
  destruct (dict_get ss l) as [i|] eqn:Hi; [|congruence].
  unfold get_audiodevice_settings, settings_device_id, connect, bind,
    get_connected, socket_call, print, ret, raise.
  simpl. rewrite Hi. simpl. eexists. reflexivity.
Qed.

(** When the reply to [GetSpecialSources] carries its ['status'] entry and
    every special source has a [device_id], the report returns, having
    sent [GetSpecialSources] once and then one [GetSourceSettings] per
    source in the order of the reply, and having printed one line per
    source; [get_audio_device_ids] sends the same requests. *)
Theorem report_queries_every_source (hw : host) (fuel : nat)
    (adm : AudioDeviceManager) (w : world) (st : string) :
  dict_get (special_sources (remote w)) "status" = Some st ->
  Forall (fun l => dict_get (source_settings (remote w)) l <> None)
    (dict_values (dict_del (special_sources (remote w)) "status")) ->
  let labels := dict_values (dict_del (special_sources (remote w)) "status") in
  let sent :=
    (wire w ++ connect_ops w
       ++ ws_call GetSpecialSources
       :: map (fun l => ws_call (GetSourceSettings l)) labels)%list in
  (exists lines,
     length lines = length labels
     /\ print_sources_settings hw (S fuel) adm w
        = (Ret tt,
           mkworld true sent (remote w)
             (stdout w ++ connect_lines w ++ lines)))
  /\ fst (get_audio_device_ids w) = Ret tt
  /\ wire (snd (get_audio_device_ids w)) = sent.
Proof.
  intros Hstatus Hall labels sent. split.
  - unfold print_sources_settings.
    unfold bind at 1. rewrite connect_run.
    unfold bind at 1. rewrite get_audio_devices_run.
    cbn [remote connected wire stdout connect_ops connect_lines].
    rewrite Hstatus.
    match goal with
    | |- context [for_each ?l ?b ?w2] =>
      destruct (for_each_queries b l (report_body_queries hw fuel adm)
                  w2 eq_refl Hall) as [lines [Hlen Hrun]];
      rewrite Hrun
    end.
    exists lines. split; [exact Hlen|].
    cbn [remote connected wire stdout]. unfold sent, labels.
    rewrite !app_nil_r, <- !app_assoc. reflexivity.
  - assert (Hids : exists lines,
                     get_audio_device_ids w
                     = (Ret tt,
                        mkworld true sent (remote w)
                          (stdout w ++ connect_lines w ++ lines))).
    { unfold get_audio_device_ids.
      unfold bind at 1. rewrite get_audio_devices_run. rewrite Hstatus.
      match goal with
      | |- context [for_each ?l ?b ?w2] =>
        destruct (for_each_queries b l ids_body_queries w2 eq_refl Hall)
          as [lines [Hlen Hrun]];
        rewrite Hrun
      end.
      exists lines. cbn [remote connected wire stdout]. unfold sent, labels.
      rewrite <- !app_assoc. reflexivity. }
    destruct Hids as [lines Hids]. rewrite Hids. split; reflexivity.
Qed.

Lemma report_queries_every_source_witness :
  wire (snd (get_audio_device_ids (OBSWebsocket_init obs_plain)))
  = [ws_connect; ws_call GetSpecialSources;
     ws_call (GetSourceSettings "Desktop Audio");
     ws_call (GetSourceSettings "Mic/Aux")].
Proof.
  apply (report_queries_every_source host_plain 0 adm_plain
           (OBSWebsocket_init obs_plain) "ok").
  - reflexivity.
  - repeat constructor; discriminate.
Defined.


(** ** The whole run *)

Lemma set_audio_device_settings_live (hw : host) (fuel : nat) (c : config)
    (adm : AudioDeviceManager) :
  keeps live live (set_audio_device_settings hw fuel c adm).
Proof.
  assert (Hloop : forall b l,
             keeps live live (for_each l (set_route hw fuel adm b))).
  { intros b l. apply keeps_for_each. intros conf.
    apply from_live, set_route_live. }
  unfold set_audio_device_settings.
  apply (keeps_bind live live live); [| auto |].
  - destruct (Nat.eqb (length (inputs c)) 0); [apply keeps_ret|].
    then_live ltac:(apply keeps_print_live). intros _. apply Hloop.
  - intros _.
    destruct (Nat.eqb (length (outputs c)) 0); [apply keeps_ret|].
    then_live ltac:(apply keeps_print_live). intros _. apply Hloop.
Qed.

(** What follows [ws.connect()] in [main], up to the last [print]. *)
Lemma main_body_live (hw : host) (fuel : nat) (c : config)
    (adm : AudioDeviceManager) :
  keeps live live
    (print "" ;;
     print_sources_settings hw fuel adm ;;
     set_audio_device_settings hw fuel c adm ;;
     print "").
Proof.
  then_live ltac:(apply keeps_print_live). intros _.
  then_live ltac:(apply from_live, print_sources_settings_live). intros _.
  then_live ltac:(apply set_audio_device_settings_live). intros _.
  apply keeps_print_live.
Qed.

Lemma seq_regroup (c p q r s d : M unit) (w : world) :
  (c ;; p ;; q ;; r ;; s ;; d) w = (c ;; (p ;; q ;; r ;; s) ;; d) w.
Proof.
  unfold bind.
  destruct (c w) as [[[]|e|] w0]; [|reflexivity|reflexivity].
  destruct (p w0) as [[[]|e|] w1]; [|reflexivity|reflexivity].
  destruct (q w1) as [[[]|e|] w2]; [|reflexivity|reflexivity].
  destruct (r w2) as [[[]|e|] w3]; [|reflexivity|reflexivity].
  destruct (s w3) as [[[]|e|] w4]; reflexivity.
Qed.

Lemma bind_print {A} (s : string) (k : unit -> M A) (w : world) :
  bind (print s) k w
  = k tt (mkworld (connected w) (wire w) (remote w) (stdout w ++ [s])).
Proof. reflexivity. Qed.

Lemma disconnect_run (w : world) :
  connected w = true ->
  disconnect w
  = (Ret tt,
     mkworld false (wire w ++ [ws_disconnect]) (remote w)
       (stdout w ++ ["OBS WebSocket disconnected."])).
Proof.
  intros Hc. destruct w as [c log o out]. simpl in Hc. subst c. reflexivity.
Qed.

(** [main] is its banner followed by connect, the report, the pass and
    disconnect. *)
Lemma main_run (hw : host) (fuel : nat) (c : config) (w : world) :
  exists banner,
    main hw fuel c w
    = (connect ;;
       (print "" ;;
        print_sources_settings hw fuel (ADM_init hw c) ;;
        set_audio_device_settings hw fuel c (ADM_init hw c) ;;
        print "") ;;
       disconnect)
        (mkworld (connected w) (wire w) (remote w) (stdout w ++ banner)).
Proof.
  eexists. unfold main.
  unfold bind at 1. unfold lift at 1. cbn [fst snd].
  rewrite bind_print. cbv beta zeta.
  rewrite bind_print. cbv beta.
  rewrite bind_print. cbv beta.
  rewrite bind_print. cbv beta.
  cbn [connected wire remote stdout].
  rewrite seq_regroup. rewrite <- !app_assoc. reflexivity.
Qed.

(** [main] closes the socket only when everything before succeeded: if the
    report or the pass raises, the run ends with the exception and the
    session still connected, no disconnect having been sent.  Either way
    the socket has been driven legally. *)
Theorem main_disconnects_only_on_success (hw : host) (fuel : nat)
    (c : config) (w : world) :
  session_ok w ->
  session_ok (snd (main hw fuel c w))
  /\ (fst (main hw fuel c w) = Ret tt ->
      connected (snd (main hw fuel c w)) = false
      /\ exists log, wire (snd (main hw fuel c w))
                     = (log ++ [ws_disconnect])%list)
  /\ (fst (main hw fuel c w) <> Ret tt ->
      connected (snd (main hw fuel c w)) = true
      /\ forall log, wire (snd (main hw fuel c w))
                     <> (log ++ [ws_disconnect])%list).
Proof.
  intros Hw. destruct (main_run hw fuel c w) as [banner Hrun].
  rewrite Hrun. clear Hrun.
  match goal with
  | |- context [bind connect _ ?W] =>
    assert (HW0 : session_ok W) by exact Hw;
    generalize dependent W
  end.
  intros W0 HW0.
  pose proof (connect_opens W0 HW0) as Hlive.
  unfold bind at 1 6 11 16 21 26 31.
  destruct (connect W0) as [[[]|e|] W1]; cbn [snd] in Hlive.
  2,3: (cbn [fst snd]; destruct Hlive as [Hok Hconn];
        split; [exact Hok|]; split; [discriminate|];
        intros _; split; [exact Hconn|];
        intros log Hlog; unfold session_ok in Hok;
        rewrite Hlog, replay_app in Hok;
        destruct (replay false log) as [[|]|]; simpl in Hok; congruence).
  match goal with
  | |- context [bind ?B (fun _ => disconnect) W1] =>
    pose proof (main_body_live hw fuel c (ADM_init hw c) W1 Hlive) as Hbody;
    unfold bind at 1 5 9 13 17 21 25;
    destruct (B W1) as [[[]|e|] w2]
  end; cbn [snd] in Hbody; destruct Hbody as [Hok Hconn].
  - rewrite (disconnect_run w2 Hconn). cbn [fst snd connected wire].
    split; [|split].
    + unfold session_ok in *. cbn [wire connected].
      rewrite replay_app, Hok, Hconn. reflexivity.
    + intros _. split; [reflexivity | eexists; reflexivity].
    + intros H. congruence.
  - cbn [fst snd]. split; [exact Hok|]. split; [discriminate|].
    intros _. split; [exact Hconn|].
    intros log Hlog. unfold session_ok in Hok.
    rewrite Hlog, replay_app in Hok.
    destruct (replay false log) as [[|]|]; simpl in Hok; congruence.
  - cbn [fst snd]. split; [exact Hok|]. split; [discriminate|].
    intros _. split; [exact Hconn|].
    intros log Hlog. unfold session_ok in Hok.
    rewrite Hlog, replay_app in Hok.
    destruct (replay false log) as [[|]|]; simpl in Hok; congruence.
Qed.

Lemma main_disconnects_only_on_success_witness :
  session_ok
    (snd (main host_plain 2 config_one_bad (OBSWebsocket_init obs_plain))).
Proof.
  apply (main_disconnects_only_on_success host_plain 2 config_one_bad
           (OBSWebsocket_init obs_plain)).
  reflexivity.
Defined.

(** ** A source without settings *)

Lemma for_each_queries_stop (body : string -> M unit)
    (pre post : list string) (l : string) :
  (forall l w,
     connected w = true ->
     dict_get (source_settings (remote w)) l <> None ->
     exists line,
       body l w
       = (Ret tt,
          mkworld true (wire w ++ [ws_call (GetSourceSettings l)])
            (remote w) (stdout w ++ [line]))) ->
  (forall w,
     connected w = true ->
     dict_get (source_settings (remote w)) l = None ->
     body l w
     = (Raise KeyError,
        mkworld true (wire w ++ [ws_call (GetSourceSettings l)])
          (remote w) (stdout w))) ->
  forall w,
    connected w = true ->
    Forall (fun l => dict_get (source_settings (remote w)) l <> None) pre ->
    dict_get (source_settings (remote w)) l = None ->
    exists lines,
      length lines = length pre
      /\ for_each (pre ++ l :: post) body w
         = (Raise KeyError,
            mkworld true
              (wire w
                 ++ map (fun l => ws_call (GetSourceSettings l)) (pre ++ [l]))
              (remote w) (stdout w ++ lines)).
Proof.
  intros Hgood Hbad. induction pre as [|p pre IH]; intros w Hc Hall Hl.
  - exists []. split; [reflexivity|].
    simpl. unfold bind. rewrite (Hbad w Hc Hl), app_nil_r. reflexivity.
  - inversion Hall as [|p' pre' Hp Hrest]; subst.
    destruct (Hgood p w Hc Hp) as [line Hline].
    simpl. unfold bind. rewrite Hline.
    destruct (IH (mkworld true (wire w ++ [ws_call (GetSourceSettings p)])
                    (remote w) (stdout w ++ [line])) eq_refl Hrest Hl)
      as [lines [Hlen Hrun]].
    exists (line :: lines). split; [simpl; rewrite Hlen; reflexivity|].
    rewrite Hrun. simpl. rewrite <- !app_assoc. reflexivity.
Qed.

Lemma report_body_stops (hw : host) (fuel : nat) (adm : AudioDeviceManager)
    (l : string) (w : world) :
  connected w = true ->
  dict_get (source_settings (remote w)) l = None ->
  (settings <- get_audiodevice_settings l ;;
   device_id <- settings_device_id settings ;;
   device <- lift (device_by_id hw adm fuel device_id, []) ;;
   if negb (truthy device)
   then print (l ++ " is set to a device-id unknown to Windows: '"
                 ++ device_id ++ "'")
   else if value_eq_str device "default"
   then print (l ++ " is set to 'default'")
   else match device with
        | VDev d => print (l ++ " is set to '" ++ name d ++ "'")
        | _ => raise AttributeError
        end) w
  = (Raise KeyError,
     mkworld true (wire w ++ [ws_call (GetSourceSettings l)])
       (remote w) (stdout w)).
Proof.
  intros Hc Hl. destruct w as [c log [sp ss] out].
  simpl in Hc, Hl. subst c.
  unfold get_audiodevice_settings, settings_device_id, connect, bind,
    get_connected, socket_call, lift, print, ret, raise.
  simpl. rewrite Hl. reflexivity.
Qed.

(** The report is not tolerant of a broken source either: the first
    special source for which OBS returns no [device_id] ends
    [print_sources_settings] with [KeyError] right after the request for
    it, and the sources after it are neither queried nor reported. *)
Theorem report_stops_at_source_without_settings (hw : host) (fuel : nat)
    (adm : AudioDeviceManager) (w : world) (st : string)
    (pre post : list string) (l : string) :
  dict_get (special_sources (remote w)) "status" = Some st ->
  dict_values (dict_del (special_sources (remote w)) "status")
  = (pre ++ l :: post)%list ->
  Forall (fun l => dict_get (source_settings (remote w)) l <> None) pre ->
  dict_get (source_settings (remote w)) l = None ->
  exists lines,
    length lines = length pre
    /\ print_sources_settings hw (S fuel) adm w
       = (Raise KeyError,
          mkworld true
            (wire w ++ connect_ops w
               ++ ws_call GetSpecialSources
               :: map (fun l => ws_call (GetSourceSettings l)) (pre ++ [l]))
            (remote w) (stdout w ++ connect_lines w ++ lines)).
Proof.
  intros Hstatus Hlabels Hpre Hl.
  unfold print_sources_settings.
  unfold bind at 1. rewrite connect_run.
  unfold bind at 1. rewrite get_audio_devices_run.
  cbn [remote connected wire stdout connect_ops connect_lines].
  rewrite Hstatus, Hlabels.
  match goal with
  | |- context [for_each _ ?b ?w2] =>
    destruct (for_each_queries_stop b pre post l
                (report_body_queries hw fuel adm)
                (report_body_stops hw (S fuel) adm l)
                w2 eq_refl Hpre Hl) as [lines [Hlen Hrun]];
    rewrite Hrun
  end.
  exists lines. split; [exact Hlen|].
  cbn [remote connected wire stdout].
  rewrite !app_nil_r, <- !app_assoc. reflexivity.
Qed.

Lemma report_stops_at_source_without_settings_witness :
  exists lines,
    length lines = 0
    /\ print_sources_settings host_plain 1 adm_plain
         (OBSWebsocket_init
            (mkobs (special_sources obs_plain) [("Mic/Aux", "A1")]))
       = (Raise KeyError,
          mkworld true
            [ws_connect; ws_call GetSpecialSources;
             ws_call (GetSourceSettings "Desktop Audio")]
            (mkobs (special_sources obs_plain) [("Mic/Aux", "A1")])
            ("OBS WebSocket connection established." :: lines)).
Proof.
  apply (report_stops_at_source_without_settings host_plain 0 adm_plain
           (OBSWebsocket_init
              (mkobs (special_sources obs_plain) [("Mic/Aux", "A1")]))
           "ok" [] ["Mic/Aux"] "Desktop Audio").
  - reflexivity.
  - reflexivity.
  - constructor.
  - reflexivity.
Defined.
